(** * chu: an error-returning handler layer over the chi router

    A shallow embedding of [chu.go], [adapter.go] and [options.go], and the
    properties of the adapter contract proved over it.

    Go function values become Rocq functions.  The closures that the package
    hands to the underlying router capture a [*Router]; they are kept as
    their captured environment ([adaptClosure], [useClosure]) and run
    against the router store at request time, which is what a Go closure
    over a pointer does. *)

From stdpp Require Import base option list.
From Stdlib Require Import String Ascii Lia.

Local Open Scope string_scope.
Local Open Scope list_scope.

(** ** A state monad with abnormal termination

    [None] stands for a call that does not return normally (a Go panic, or
    the evaluation budget of [ServeHTTP] running out). *)

Definition SF (S A : Type) : Type := S -> option (A * S).

Definition ret {S A} (a : A) : SF S A := fun s => Some (a, s).

Definition bind {S A B} (c : SF S A) (k : A -> SF S B) : SF S B :=
  fun s => match c s with
           | Some (a, s') => k a s'
           | None => None
           end.

Definition panic {S A} : SF S A := fun _ => None.

Definition gets {S A} (f : S -> A) : SF S A := fun s => Some (f s, s).

Definition modify {S} (f : S -> S) : SF S unit := fun s => Some (tt, f s).

(** A value that may be absent, read or else panic (nil dereference). *)
Definition must {S A} (o : option A) : SF S A :=
  match o with
  | Some a => ret a
  | None => panic
  end.

Declare Scope sf_scope.
Delimit Scope sf_scope with sf.
Notation "x <- c ;; k" := (bind c (fun x => k))
  (at level 100, c at next level, right associativity) : sf_scope.
Notation "c ;; k" := (bind c (fun _ => k))
  (at level 100, right associativity) : sf_scope.
Local Open Scope sf_scope.

(** ** net/http as the package sees it *)

(** [error]: a value with an [Error() string] method; Go's [nil] error is
    [None : option error]. *)
Inductive error : Type := errors_New (msg : string).

Definition Error (e : error) : string :=
  match e with errors_New msg => msg end.

(** [context.Context]: the request-scoped values. *)
Definition Context : Type := list (string * string).

(** [RoutePath] is the routing cursor that the underlying router keeps in
    the request context while it descends into mounted routers; the URL
    path itself is never rewritten. *)
Record Request : Type := mkRequest {
  Method : string;
  Path : string;
  ctx : Context;
  RoutePath : option string
}.

Definition Request_Context (r : Request) : Context := ctx r.

(** An [http.ResponseWriter] is a handle on a response being recorded. *)
Definition ResponseWriter : Type := nat.

(** What a request can do to the outside: calls on a response writer, and
    application side effects ([Mark], the [called = true] of the tests). *)
Inductive Event : Type :=
| HeaderSet (w : ResponseWriter) (key value : string)
| WriteHeader (w : ResponseWriter) (statusCode : nat)
| Write (w : ResponseWriter) (data : string)
| Mark (label : string).

(** The request-time state: the events so far, in order, and the local
    variables that closures captured and assign to ([var err error] in
    [AdaptMiddleware]). *)
Record World : Type := mkWorld {
  events : list Event;
  cells : list (option error)
}.

Definition Act (A : Type) : Type := SF World A.

Definition emit (e : Event) : Act unit :=
  modify (fun s => {| events := events s ++ [e]; cells := cells s |}).

Definition StatusOK : nat := 200.
Definition StatusBadRequest : nat := 400.
Definition StatusNotFound : nat := 404.
Definition StatusMethodNotAllowed : nat := 405.
Definition StatusInternalServerError : nat := 500.

Definition newline : string := String (ascii_of_nat 10) EmptyString.

(** [http.Error(w, error, code)]: sets the plain-text content type headers,
    writes the status line, then prints the message with [fmt.Fprintln]. *)
Definition http_Error (w : ResponseWriter) (msg : string) (code : nat) : Act unit :=
  emit (HeaderSet w "Content-Type" "text/plain; charset=utf-8") ;;
  emit (HeaderSet w "X-Content-Type-Options" "nosniff") ;;
  emit (WriteHeader w code) ;;
  emit (Write w (msg ++ newline)).

(** The response a recorder ([httptest.ResponseRecorder]) shows for the
    writer [w] after a run: the first status written counts, a body write
    before any status implies 200, and the body is all writes in order. *)
Fixpoint status_of (w : ResponseWriter) (evs : list Event) : nat :=
  match evs with
  | [] => StatusOK
  | WriteHeader w' c :: rest => if Nat.eqb w w' then c else status_of w rest
  | Write w' _ :: rest => if Nat.eqb w w' then StatusOK else status_of w rest
  | _ :: rest => status_of w rest
  end.

Fixpoint body_of (w : ResponseWriter) (evs : list Event) : string :=
  match evs with
  | [] => ""
  | Write w' d :: rest => if Nat.eqb w w' then d ++ body_of w rest else body_of w rest
  | _ :: rest => body_of w rest
  end.

(** ** The handler shapes (chu.go) *)

(** [type Handler func(ctx context.Context, w http.ResponseWriter, r *http.Request) error] *)
Definition Handler : Type :=
  Context -> ResponseWriter -> Request -> Act (option error).

(** [type ErrorHandler func(w http.ResponseWriter, r *http.Request, err error)] *)
Definition ErrorHandler : Type :=
  ResponseWriter -> Request -> error -> Act unit.

(** [http.HandlerFunc]: a plain function used as an [http.Handler]. *)
Definition HandlerFunc : Type := ResponseWriter -> Request -> Act unit.

(** References into the store of [Router] wrappers and of chi routers. *)
Abbreviation RouterRef := nat (only parsing).
Abbreviation MuxRef := nat (only parsing).

(** The [http.Handler] values that reach the underlying router.

    - [funcHandler f]: an application function, capturing no router;
    - [adaptClosure r h]: the function literal returned by [Router.adapt],
      capturing the receiver [r] and [h];
    - [useClosure r middleware next]: the inner function literal of
      [Router.Use], capturing [r], the loop's [middleware] and [next];
    - [muxHandler m]: a chi router used as a handler (a mounted sub-router);
    - [routeHTTP m]: the routing endpoint of chi router [m], at the bottom
      of its middleware chain. *)
Inductive http_Handler : Type :=
| funcHandler (f : HandlerFunc)
| adaptClosure (r : RouterRef) (h : Handler)
| useClosure (r : RouterRef) (middleware : Handler -> Handler) (next : http_Handler)
| muxHandler (m : MuxRef)
| routeHTTP (m : MuxRef).

(** ** The underlying router *)

(** The function value that [Router.Use] stores in [wrappedMiddlewares[i]]:
    it captures the receiver and the [middleware] of its iteration (each
    iteration of a [for ... range] has its own variable, Go 1.22). *)
Record Middleware : Type := mkMiddleware {
  mw_router : RouterRef;
  mw_func : Handler -> Handler
}.

(** Calling that function value on [next]. *)
Definition apply_Middleware (mw : Middleware) (next : http_Handler) : http_Handler :=
  useClosure (mw_router mw) (mw_func mw) next.

Record Route : Type := mkRoute {
  route_method : string;
  route_pattern : string;
  route_handler : http_Handler
}.

(** Modelled from the spec: the chi router ([chi.Router], [chi.NewRouter])
    is an external collaborator that is not part of the sources.  Section 6
    of the specification lists what it provides: registration of a handler
    per method and pattern, not-found and method-not-allowed fallbacks,
    middleware registration, mounting a handler at a prefix, and serving a
    request; section 4.1 fixes the middleware order (first registered is
    outermost).  Patterns are compared literally here; parameters and
    wildcards are the collaborator's own business. *)
Record Mux : Type := mkMux {
  middlewares : list Middleware;
  routes : list Route;
  mounts : list (string * http_Handler);
  notFoundHandler : option http_Handler;
  methodNotAllowedHandler : option http_Handler
}.

Definition NewMux : Mux :=
  {| middlewares := []; routes := []; mounts := [];
     notFoundHandler := None; methodNotAllowedHandler := None |}.

(** [func() chi.Router]: a construction strategy allocates in the store of
    chi routers and returns an interface value ([None] is a nil interface). *)
Definition Builder : Type := list Mux -> option MuxRef * list Mux.

(** [type Router struct { chi chi.Router; errHandler ErrorHandler;
    routerBuilder func() chi.Router }].  A nil [routerBuilder] is [None]. *)
Record Router : Type := mkRouter {
  chi : option MuxRef;
  errHandler : ErrorHandler;
  routerBuilder : option Builder
}.

(** The configuration-time state: every [*Router] and every chi router
    allocated so far, addressed by position. *)
Record Store : Type := mkStore {
  routers : list Router;
  muxes : list Mux
}.

Definition Cfg (A : Type) : Type := SF Store A.

Definition deref (r : RouterRef) : Cfg Router :=
  fun st => must (routers st !! r) st.

Definition assign (r : RouterRef) (f : Router -> Router) : Cfg unit :=
  R <- deref r ;;
  modify (fun st => {| routers := <[r := f R]> (routers st); muxes := muxes st |}).

(** [&Router{...}] *)
Definition new_Router (R : Router) : Cfg RouterRef :=
  fun st => Some (List.length (routers st),
                  {| routers := routers st ++ [R]; muxes := muxes st |}).

Definition update_Mux (m : MuxRef) (f : Mux -> Mux) : Cfg unit :=
  fun st => match muxes st !! m with
            | Some M => Some (tt, {| routers := routers st;
                                     muxes := <[m := f M]> (muxes st) |})
            | None => None
            end.

(** Modelled from the spec: the registration operations of the underlying
    router (section 6) record what they are given.  They are reached
    through the [chi] field of a wrapper; a nil interface panics. *)
Definition Mux_Method (c : option MuxRef) (method pattern : string) (h : http_Handler) : Cfg unit :=
  m <- must c ;;
  update_Mux m (fun M =>
    {| middlewares := middlewares M;
       routes := routes M ++ [mkRoute method pattern h];
       mounts := mounts M;
       notFoundHandler := notFoundHandler M;
       methodNotAllowedHandler := methodNotAllowedHandler M |}).

Definition Mux_NotFound (c : option MuxRef) (h : http_Handler) : Cfg unit :=
  m <- must c ;;
  update_Mux m (fun M =>
    {| middlewares := middlewares M; routes := routes M; mounts := mounts M;
       notFoundHandler := Some h;
       methodNotAllowedHandler := methodNotAllowedHandler M |}).

Definition Mux_MethodNotAllowed (c : option MuxRef) (h : http_Handler) : Cfg unit :=
  m <- must c ;;
  update_Mux m (fun M =>
    {| middlewares := middlewares M; routes := routes M; mounts := mounts M;
       notFoundHandler := notFoundHandler M;
       methodNotAllowedHandler := Some h |}).

(** [Mount(pattern, h)]; mounting a nil handler panics. *)
Definition Mux_Mount (c : option MuxRef) (pattern : string) (h : option http_Handler) : Cfg unit :=
  m <- must c ;;
  h' <- must h ;;
  update_Mux m (fun M =>
    {| middlewares := middlewares M; routes := routes M;
       mounts := mounts M ++ [(pattern, h')];
       notFoundHandler := notFoundHandler M;
       methodNotAllowedHandler := methodNotAllowedHandler M |}).

Definition Mux_Use (c : option MuxRef) (mws : list Middleware) : Cfg unit :=
  m <- must c ;;
  update_Mux m (fun M =>
    {| middlewares := middlewares M ++ mws;
       routes := routes M; mounts := mounts M;
       notFoundHandler := notFoundHandler M;
       methodNotAllowedHandler := methodNotAllowedHandler M |}).

(** Modelled from the spec: the middleware chain of the underlying router
    (section 4.1, Ordering): the first registered wraps the second, and so
    on down to the routing endpoint. *)
Definition Chain (mws : list Middleware) (endpoint : http_Handler) : http_Handler :=
  fold_right apply_Middleware endpoint mws.

(** A chi router passed where an [http.Handler] is expected. *)
Definition as_Handler (c : option MuxRef) : option http_Handler :=
  match c with
  | Some m => Some (muxHandler m)
  | None => None
  end.

(** [http.NotFound] and the collaborator's answer to a wrong method. *)
Definition http_NotFound : HandlerFunc :=
  fun w _ => http_Error w "404 page not found" StatusNotFound.

Definition methodNotAllowed : HandlerFunc :=
  fun w _ => emit (WriteHeader w StatusMethodNotAllowed).

(** The path a handler mounted at [prefix] is routed on. *)
Definition under (prefix path : string) : option string :=
  if String.eqb prefix "/" then Some path
  else if String.prefix prefix path then
    let rest := String.substring (String.length prefix)
                                 (String.length path - String.length prefix) path in
    if String.eqb rest "" then Some "/"
    else if String.prefix "/" rest then Some rest else None
  else None.

(** The path still to be routed. *)
Definition routing_path (req : Request) : string :=
  default (Path req) (RoutePath req).

Definition find_route (M : Mux) (req : Request) : option http_Handler :=
  route_handler <$>
    List.find (fun rt => String.eqb (route_method rt) (Method req)
                         && String.eqb (route_pattern rt) (routing_path req)) (routes M).

Fixpoint find_mount (ms : list (string * http_Handler)) (req : Request)
  : option (http_Handler * Request) :=
  match ms with
  | [] => None
  | (prefix, h) :: rest =>
      match under prefix (routing_path req) with
      | Some p => Some (h, {| Method := Method req; Path := Path req;
                              ctx := ctx req; RoutePath := Some p |})
      | None => find_mount rest req
      end
  end.

(** Modelled from the spec: what the routing endpoint of [M] hands the
    request to; a registered route first, then a mounted handler, then the
    not-found fallback. *)
Definition route (M : Mux) (req : Request) : http_Handler * Request :=
  match find_route M req with
  | Some h => (h, req)
  | None =>
      if existsb (fun rt => String.eqb (route_pattern rt) (routing_path req)) (routes M)
      then (default (funcHandler methodNotAllowed) (methodNotAllowedHandler M), req)
      else match find_mount (mounts M) req with
           | Some hr => hr
           | None => (default (funcHandler http_NotFound) (notFoundHandler M), req)
           end
  end.

(** ** options.go *)

(** [type Option func(r *Router)] *)
Definition Option : Type := RouterRef -> Cfg unit.

Definition WithErrorHandler (handler : ErrorHandler) : Option :=
  fun r => assign r (fun R =>
    {| chi := chi R; errHandler := handler; routerBuilder := routerBuilder R |}).

Definition defaultErrorHandler : ErrorHandler :=
  fun w _ err => http_Error w (Error err) StatusInternalServerError.

Definition WithRouterBuilder (builder : option Builder) : Option :=
  fun r => assign r (fun R =>
    {| chi := chi R; errHandler := errHandler R; routerBuilder := builder |}).

(** [chi.NewRouter()]: a fresh router with nothing registered. *)
Definition defaultRouterBuilder : Builder :=
  fun ms => (Some (List.length ms), ms ++ [NewMux]).

(** ** chu.go *)

(** Calling a [func() chi.Router] value; calling nil panics. *)
Definition call_Builder (b : option Builder) : Cfg (option MuxRef) :=
  f <- must b ;;
  fun st => let (c, ms) := f (muxes st) in
            Some (c, {| routers := routers st; muxes := ms |}).

(** [for _, opt := range opts { opt(r) }] *)
Fixpoint apply_options (opts : list Option) (r : RouterRef) : Cfg unit :=
  match opts with
  | [] => ret tt
  | opt :: rest => opt r ;; apply_options rest r
  end.

Definition New (opts : list Option) : Cfg RouterRef :=
  r <- new_Router {| chi := None;
                     errHandler := defaultErrorHandler;
                     routerBuilder := Some defaultRouterBuilder |} ;;
  apply_options opts r ;;
  R <- deref r ;;
  c <- call_Builder (routerBuilder R) ;;
  assign r (fun R' =>
    {| chi := c; errHandler := errHandler R'; routerBuilder := routerBuilder R' |}) ;;
  ret r.

Definition Router_SetErrorHandler (r : RouterRef) (handler : ErrorHandler) : Cfg unit :=
  assign r (fun R =>
    {| chi := chi R; errHandler := handler; routerBuilder := routerBuilder R |}).

(** [adapt] allocates the closure; its body runs in [ServeHTTP] below. *)
Definition Router_adapt (r : RouterRef) (h : Handler) : http_Handler :=
  adaptClosure r h.

Definition Router_Group (r : RouterRef) (fn : RouterRef -> Cfg unit) : Cfg RouterRef :=
  R <- deref r ;;
  c <- call_Builder (routerBuilder R) ;;
  R' <- deref r ;;
  subRouter <- new_Router {| chi := c;
                             errHandler := errHandler R';
                             routerBuilder := None |} ;;
  fn subRouter ;;
  P <- deref r ;;
  Sub <- deref subRouter ;;
  Mux_Mount (chi P) "/" (as_Handler (chi Sub)) ;;
  ret subRouter.

Definition Router_Route (r : RouterRef) (pattern : string) (fn : RouterRef -> Cfg unit) : Cfg unit :=
  R <- deref r ;;
  c <- call_Builder (routerBuilder R) ;;
  R' <- deref r ;;
  subRouter <- new_Router {| chi := c;
                             errHandler := errHandler R';
                             routerBuilder := None |} ;;
  fn subRouter ;;
  P <- deref r ;;
  Sub <- deref subRouter ;;
  Mux_Mount (chi P) pattern (as_Handler (chi Sub)).

Definition Router_Mount (r : RouterRef) (pattern : string) (h : option http_Handler) : Cfg unit :=
  R <- deref r ;;
  Mux_Mount (chi R) pattern h.

Definition Router_Use (r : RouterRef) (middlewares : list (Handler -> Handler)) : Cfg unit :=
  let wrappedMiddlewares := map (fun middleware => mkMiddleware r middleware) middlewares in
  R <- deref r ;;
  Mux_Use (chi R) wrappedMiddlewares.

Definition Router_NotFound (r : RouterRef) (h : Handler) : Cfg unit :=
  R <- deref r ;;
  Mux_NotFound (chi R) (Router_adapt r h).

Definition Router_MethodNotAllowed (r : RouterRef) (h : Handler) : Cfg unit :=
  R <- deref r ;;
  Mux_MethodNotAllowed (chi R) (Router_adapt r h).

Definition Router_Method (r : RouterRef) (method pattern : string) (h : Handler) : Cfg unit :=
  R <- deref r ;;
  Mux_Method (chi R) method pattern (Router_adapt r h).

Definition Router_Get (r : RouterRef) (pattern : string) (h : Handler) : Cfg unit :=
  R <- deref r ;;
  Mux_Method (chi R) "GET" pattern (Router_adapt r h).

Definition Router_Post (r : RouterRef) (pattern : string) (h : Handler) : Cfg unit :=
  R <- deref r ;;
  Mux_Method (chi R) "POST" pattern (Router_adapt r h).

Definition Router_Put (r : RouterRef) (pattern : string) (h : Handler) : Cfg unit :=
  R <- deref r ;;
  Mux_Method (chi R) "PUT" pattern (Router_adapt r h).

Definition Router_Delete (r : RouterRef) (pattern : string) (h : Handler) : Cfg unit :=
  R <- deref r ;;
  Mux_Method (chi R) "DELETE" pattern (Router_adapt r h).

Definition Router_Patch (r : RouterRef) (pattern : string) (h : Handler) : Cfg unit :=
  R <- deref r ;;
  Mux_Method (chi R) "PATCH" pattern (Router_adapt r h).

Definition Router_Head (r : RouterRef) (pattern : string) (h : Handler) : Cfg unit :=
  R <- deref r ;;
  Mux_Method (chi R) "HEAD" pattern (Router_adapt r h).

Definition Router_Options (r : RouterRef) (pattern : string) (h : Handler) : Cfg unit :=
  R <- deref r ;;
  Mux_Method (chi R) "OPTIONS" pattern (Router_adapt r h).

Definition Router_Connect (r : RouterRef) (pattern : string) (h : Handler) : Cfg unit :=
  R <- deref r ;;
  Mux_Method (chi R) "CONNECT" pattern (Router_adapt r h).

Definition Router_Trace (r : RouterRef) (pattern : string) (h : Handler) : Cfg unit :=
  R <- deref r ;;
  Mux_Method (chi R) "TRACE" pattern (Router_adapt r h).

(** ** Serving a request

    Request-time code only reads the store.  [fuel] bounds the number of
    handler invocations, since mounted routers are followed by reference. *)

(** [r.errHandler(w, req, err)], with [r] read when the call happens. *)
Definition call_errHandler (st : Store) (r : RouterRef)
  (w : ResponseWriter) (req : Request) (err : error) : Act unit :=
  match routers st !! r with
  | Some R => errHandler R w req err
  | None => panic
  end.

Fixpoint ServeHTTP (fuel : nat) (st : Store) (h : http_Handler)
  (w : ResponseWriter) (req : Request) : Act unit :=
  match fuel with
  | O => panic
  | S fuel' =>
      match h with
      | funcHandler f => f w req
      | adaptClosure r h =>
          err <- h (Request_Context req) w req ;;
          match err with
          | Some e => call_errHandler st r w req e
          | None => ret tt
          end
      | useClosure r middleware next =>
          let wrappedHandler :=
            middleware (fun _ w' r' => ServeHTTP fuel' st next w' r' ;; ret None) in
          err <- wrappedHandler (Request_Context req) w req ;;
          match err with
          | Some e => call_errHandler st r w req e
          | None => ret tt
          end
      | muxHandler m =>
          match muxes st !! m with
          | Some M => ServeHTTP fuel' st (Chain (middlewares M) (routeHTTP m)) w req
          | None => panic
          end
      | routeHTTP m =>
          match muxes st !! m with
          | Some M => let (h', req') := route M req in ServeHTTP fuel' st h' w req'
          | None => panic
          end
      end
  end.

Definition Router_ServeHTTP (fuel : nat) (st : Store) (r : RouterRef)
  (w : ResponseWriter) (req : Request) : Act unit :=
  match routers st !! r with
  | Some R =>
      match chi R with
      | Some m => ServeHTTP fuel st (muxHandler m) w req
      | None => panic
      end
  | None => panic
  end.

(** ** adapter.go *)

(** [var err error]: a fresh captured variable, initially nil. *)
Definition declare_err : Act nat :=
  fun s => Some (List.length (cells s),
                 {| events := events s; cells := cells s ++ [None] |}).

Definition store_err (c : nat) (e : option error) : Act unit :=
  modify (fun s => {| events := events s; cells := <[c := e]> (cells s) |}).

Definition load_err (c : nat) : Act (option error) :=
  fun s => must (cells s !! c) s.

(** The function literal handed to [stdMiddleware]:
    [func(w, r) { err = next(r.Context(), w, r) }]. *)
Definition capture (next : Handler) (err : nat) : HandlerFunc :=
  fun w r => e <- next (Request_Context r) w r ;; store_err err e.

Definition AdaptMiddleware (stdMiddleware : HandlerFunc -> HandlerFunc) : Handler -> Handler :=
  fun next _ w r =>
    err <- declare_err ;;
    stdMiddleware (capture next err) w r ;;
    load_err err.

Definition AdaptHandler (h : Handler) (errHandler : ErrorHandler) : HandlerFunc :=
  fun w r =>
    err <- h (Request_Context r) w r ;;
    match err with
    | Some e => errHandler w r e
    | None => ret tt
    end.

Definition StandardHandler (h : HandlerFunc) : Handler :=
  fun _ w r => h w r ;; ret None.

(** ** Vocabulary of the statements *)

(** What [defaultErrorHandler] issues on the writer for [err]. *)
Definition default_writes (w : ResponseWriter) (err : error) : list Event :=
  [ HeaderSet w "Content-Type" "text/plain; charset=utf-8";
    HeaderSet w "X-Content-Type-Options" "nosniff";
    WriteHeader w StatusInternalServerError;
    Write w (Error err ++ newline) ].

(** Whether the response on [w] has been started. *)
Definition wrote (w : ResponseWriter) (evs : list Event) : bool :=
  existsb (fun e => match e with
                    | WriteHeader w' _ | Write w' _ => Nat.eqb w w'
                    | _ => false
                    end) evs.

(** Nested decorators, as the specification words the middleware order:
    [link eh mw next] is the middleware [mw] wrapped around [next], a
    failure of [mw] going to [eh]; [nested eh [A; B; C] h] is A around B
    around C around [h]. *)
Definition link (eh : ErrorHandler) (middleware : Handler -> Handler)
  (next : HandlerFunc) : HandlerFunc :=
  fun w req =>
    err <- middleware (fun _ w' r' => next w' r' ;; ret None)
             (Request_Context req) w req ;;
    match err with
    | Some e => eh w req e
    | None => ret tt
    end.

Definition nested (eh : ErrorHandler) (mws : list (Handler -> Handler))
  (endpoint : HandlerFunc) : HandlerFunc :=
  fold_right (link eh) endpoint mws.

(** A middleware with logic before and after the handler it wraps. *)
Definition around (pre post : Act unit) : Handler -> Handler :=
  fun next c w r => pre ;; e <- next c w r ;; post ;; ret e.

Fixpoint run_all (acts : list (Act unit)) : Act unit :=
  match acts with
  | [] => ret tt
  | a :: rest => a ;; run_all rest
  end.

(** A configuration step that leaves the error handler of [r] as it is. *)
Definition keeps_errHandler (r : RouterRef) (c : Cfg unit) : Prop :=
  forall st st', c st = Some (tt, st') ->
    errHandler <$> (routers st' !! r) = errHandler <$> (routers st !! r).

(** The state in which the callback of [Group] or [Route] starts: the
    construction strategy has run and the new wrapper is allocated. *)
Definition scope_entry (st : Store) (P : Router) (b : Builder) : Store :=
  {| routers := routers st ++ [{| chi := fst (b (muxes st));
                                 errHandler := errHandler P;
                                 routerBuilder := None |}];
     muxes := snd (b (muxes st)) |}.

(** The options the package exports, and what a list of them selects. *)
Inductive opt : Type :=
| optErrorHandler (handler : ErrorHandler)
| optRouterBuilder (builder : Builder).

Definition option_of (o : opt) : Option :=
  match o with
  | optErrorHandler handler => WithErrorHandler handler
  | optRouterBuilder builder => WithRouterBuilder (Some builder)
  end.

Definition last_builder (os : list opt) (d : Builder) : Builder :=
  fold_left (fun acc o => match o with optRouterBuilder b => b | _ => acc end) os d.

Definition last_errHandler (os : list opt) (d : ErrorHandler) : ErrorHandler :=
  fold_left (fun acc o => match o with optErrorHandler h => h | _ => acc end) os d.

(** Conventional middlewares by what they do on a request: effects of
    their own on the response, and calls of [next.ServeHTTP]. *)
Inductive StdStep : Type :=
| Own (f : list Event -> list Event)
| Forward (w : ResponseWriter) (r : Request).

Definition is_Forward (step : StdStep) : bool :=
  match step with
  | Forward _ _ => true
  | Own _ => false
  end.

Fixpoint run_steps (steps : list StdStep) (next : HandlerFunc) : Act unit :=
  match steps with
  | [] => ret tt
  | Own f :: rest =>
      modify (fun s => {| events := f (events s); cells := cells s |}) ;;
      run_steps rest next
  | Forward w r :: rest => next w r ;; run_steps rest next
  end.

Definition scripted (script : ResponseWriter -> Request -> list StdStep)
  : HandlerFunc -> HandlerFunc :=
  fun next w r => run_steps (script w r) next.

(** ** Scenarios of the test suite, used as concrete inputs *)

Definition no_store : Store := {| routers := []; muxes := [] |}.

Definition fresh_world : World := {| events := []; cells := [] |}.

Definition GET (path : string) : Request :=
  {| Method := "GET"; Path := path; ctx := []; RoutePath := None |}.

Definition test_error : error := errors_New "test error".

(** [func(ctx, w, r) error { return errors.New("test error") }] *)
Definition failing : Handler := fun _ _ _ => ret (Some test_error).

(** A handler that writes "ok" with status 200. *)
Definition writes_ok : Handler :=
  fun _ w _ => emit (WriteHeader w StatusOK) ;; emit (Write w "ok") ;; ret None.

(** The custom error handler of [TestRouter_SetErrorHandler]. *)
Definition customHandler : ErrorHandler :=
  fun w _ _ => emit (Mark "called") ;; emit (WriteHeader w StatusBadRequest).

(** The middleware of [TestRouter_UseWithErrorHandling]. *)
Definition errorMiddleware : Handler -> Handler :=
  fun _ _ _ _ => ret (Some (errors_New "middleware error")).

(** A middleware that marks its entry and its exit. *)
Definition logging (name : string) : Handler -> Handler :=
  around (emit (Mark (name ++ " in"))) (emit (Mark (name ++ " out"))).

(** The wrapper [New()] makes in an empty store, and the store after. *)
Definition default_Router : Router :=
  {| chi := Some 0; errHandler := defaultErrorHandler;
     routerBuilder := Some defaultRouterBuilder |}.

Definition new_store : Store :=
  {| routers := [default_Router]; muxes := [NewMux] |}.

(** A conventional middleware that answers by itself. *)
Definition answers_itself : HandlerFunc -> HandlerFunc :=
  fun _ w _ => emit (WriteHeader w StatusNotFound).

(** A construction strategy that returns a nil [chi.Router]. *)
Definition nil_builder : Builder := fun ms => (None, ms).

(** A conventional middleware that forwards with a value added to the
    request context, as in [TestAdaptMiddleware]. *)
Definition with_testKey (r : Request) : Request :=
  {| Method := Method r; Path := Path r;
     ctx := ("testKey", "testValue") :: ctx r; RoutePath := RoutePath r |}.

(** A handler that fails after it has started the response. *)
Definition fails_late : Handler :=
  fun _ w _ => emit (WriteHeader w StatusOK) ;; emit (Write w "partial") ;;
               ret (Some test_error).

(** * Properties *)

(** ** Monad and store lemmas *)

Lemma bind_Some {S A B} (c : SF S A) (k : A -> SF S B) s a s' :
  c s = Some (a, s') -> bind c k s = k a s'.
Proof. intros H. unfold bind. now rewrite H. Qed.

Lemma bind_None {S A B} (c : SF S A) (k : A -> SF S B) s :
  c s = None -> bind c k s = None.
Proof. intros H. unfold bind. now rewrite H. Qed.

Lemma bind_inv {S A B} (c : SF S A) (k : A -> SF S B) s b s'' :
  bind c k s = Some (b, s'') ->
  exists a s', c s = Some (a, s') /\ k a s' = Some (b, s'').
Proof.
  unfold bind. destruct (c s) as [[a s']|] eqn:E; [|discriminate].
  intros H. now exists a, s'.
Qed.

Lemma deref_Some st r R :
  routers st !! r = Some R -> deref r st = Some (R, st).
Proof. intros H. unfold deref. now rewrite H. Qed.

Lemma call_errHandler_Some st r R :
  routers st !! r = Some R -> call_errHandler st r = errHandler R.
Proof. intros H. unfold call_errHandler. now rewrite H. Qed.

Lemma append_empty (s : string) : (s ++ "")%string = s.
Proof. induction s as [|a s IH]; simpl; [reflexivity | now rewrite IH]. Qed.

(** ** The error path of the adapter *)

(** The body of the closure returned by [adapt], for a live receiver. *)
Lemma ServeHTTP_adapt st r R h fuel :
  routers st !! r = Some R ->
  ServeHTTP (S fuel) st (Router_adapt r h) = AdaptHandler h (errHandler R).
Proof.
  intros H. simpl. rewrite (call_errHandler_Some _ _ _ H). reflexivity.
Qed.

(** C2. A handler run through the adapter, by [Router.adapt] or by
    [AdaptHandler].  When the handler returns nil, the outcome is the
    state the handler left: the error handler has not run and the adapter
    has written nothing.  When the handler returns an error [e], the
    outcome is that of one call of the error handler on [e], started in
    the state the handler left: one invocation, that error, nothing else. *)
Theorem adapter_error_path (st : Store) (r : RouterRef) (R : Router)
  (h : Handler) (eh : ErrorHandler) (w : ResponseWriter) (req : Request)
  (s s' : World) (fuel : nat) :
  routers st !! r = Some R ->
  (h (Request_Context req) w req s = Some (None, s') ->
     ServeHTTP (S fuel) st (Router_adapt r h) w req s = Some (tt, s')
     /\ AdaptHandler h eh w req s = Some (tt, s'))
  /\ (forall e : error,
        h (Request_Context req) w req s = Some (Some e, s') ->
        ServeHTTP (S fuel) st (Router_adapt r h) w req s = errHandler R w req e s'
        /\ AdaptHandler h eh w req s = eh w req e s').
Proof.
  intros HR. rewrite (ServeHTTP_adapt _ _ _ _ _ HR). unfold AdaptHandler.
  split.
  - intros Hh. split; now rewrite (bind_Some _ _ _ _ _ Hh).
  - intros e Hh. split; now rewrite (bind_Some _ _ _ _ _ Hh).
Qed.

(** ** The default error handler *)

Lemma status_of_app w a b :
  status_of w (a ++ b) = if wrote w a then status_of w a else status_of w b.
Proof.
  induction a as [|e a IH]; [reflexivity|].
  destruct e as [w' k v|w' code|w' d|l]; cbn [app status_of wrote existsb orb];
    try exact IH; destruct (Nat.eqb w w'); try reflexivity; exact IH.
Qed.

Lemma append_assoc (a b c : string) : ((a ++ b) ++ c = a ++ (b ++ c))%string.
Proof. induction a as [|x a IH]; simpl; [reflexivity | now rewrite IH]. Qed.

Lemma body_of_app w a b :
  body_of w (a ++ b) = (body_of w a ++ body_of w b)%string.
Proof.
  induction a as [|e a IH]; [reflexivity|].
  destruct e as [w' k v|w' code|w' d|l]; cbn [app body_of]; try exact IH.
  destruct (Nat.eqb w w'); [|exact IH]. now rewrite IH, append_assoc.
Qed.

(** C7. For every error, the default error handler returns after writing
    status 500 and one body chunk, the message followed by a newline; a
    recorder that received these writes shows status 500 and that body.
    After earlier writes on the same response the body is appended to
    theirs, and the status stays the one already sent. *)
Theorem defaultErrorHandler_response (w : ResponseWriter) (req : Request)
  (err : error) (s : World) :
  defaultErrorHandler w req err s =
    Some (tt, {| events := events s ++ default_writes w err; cells := cells s |})
  /\ status_of w (default_writes w err) = 500
  /\ body_of w (default_writes w err) = (Error err ++ newline)%string
  /\ status_of w (events s ++ default_writes w err)
       = (if wrote w (events s) then status_of w (events s) else 500)
  /\ body_of w (events s ++ default_writes w err)
       = (body_of w (events s) ++ (Error err ++ newline))%string.
Proof.
  assert (status_of w (default_writes w err) = 500) as Hst.
  { simpl. now rewrite Nat.eqb_refl. }
  assert (body_of w (default_writes w err) = (Error err ++ newline)%string) as Hbody.
  { simpl. rewrite Nat.eqb_refl. apply append_empty. }
  split; [|split; [exact Hst | split; [exact Hbody | split]]].
  - unfold defaultErrorHandler, http_Error, emit, modify, bind, default_writes.
    simpl. now rewrite <- !app_assoc.
  - now rewrite status_of_app, Hst.
  - now rewrite body_of_app, Hbody.
Qed.

(** ** StandardHandler *)

(** C8. The handler made by [StandardHandler] runs the conventional
    handler on the writer and the request; when that returns, the result
    is nil, in the state it left; no run yields an error. *)
Theorem StandardHandler_nil (h : HandlerFunc) (c : Context)
  (w : ResponseWriter) (req : Request) (s : World) :
  StandardHandler h c w req s =
    match h w req s with
    | Some (_, s') => Some (None, s')
    | None => None
    end
  /\ (forall (e : error) (s' : World),
        StandardHandler h c w req s <> Some (Some e, s')).
Proof.
  unfold StandardHandler, bind, ret.
  destruct (h w req s) as [[[] s1]|]; split; try reflexivity;
    intros e s'; discriminate.
Qed.

(** ** Which error handler a failing route reaches *)

Lemma assign_Some st r R f :
  routers st !! r = Some R ->
  assign r f st =
    Some (tt, {| routers := <[r := f R]> (routers st); muxes := muxes st |}).
Proof.
  intros H. unfold assign. rewrite (bind_Some _ _ _ _ _ (deref_Some _ _ _ H)).
  reflexivity.
Qed.

Lemma update_Mux_Some st m M f :
  muxes st !! m = Some M ->
  update_Mux m f st =
    Some (tt, {| routers := routers st; muxes := <[m := f M]> (muxes st) |}).
Proof. intros H. unfold update_Mux. now rewrite H. Qed.

Lemma Router_Get_Method r pattern h :
  Router_Get r pattern h = Router_Method r "GET" pattern h.
Proof. reflexivity. Qed.

Lemma Router_Method_Some st r R m M method pattern h :
  routers st !! r = Some R -> chi R = Some m -> muxes st !! m = Some M ->
  Router_Method r method pattern h st =
    Some (tt, {| routers := routers st;
                 muxes := <[m := {| middlewares := middlewares M;
                                    routes := routes M ++ [mkRoute method pattern (Router_adapt r h)];
                                    mounts := mounts M;
                                    notFoundHandler := notFoundHandler M;
                                    methodNotAllowedHandler := methodNotAllowedHandler M |}]>
                            (muxes st) |}).
Proof.
  intros HR Hc HM. unfold Router_Method.
  rewrite (bind_Some _ _ _ _ _ (deref_Some _ _ _ HR)).
  rewrite Hc. unfold Mux_Method. simpl must.
  unfold bind at 1. unfold ret at 1.
  now rewrite (update_Mux_Some _ _ _ _ HM).
Qed.

(** C1, as the code has it.  A route registered on a wrapper reaches the
    error handler that the wrapper holds when the request is served: after
    [SetErrorHandler], a failure of an already registered route invokes the
    new handler. *)
Theorem errHandler_read_at_request_time (st : Store) (r : RouterRef)
  (R : Router) (m : MuxRef) (M : Mux) (method pattern : string)
  (h : Handler) (handler : ErrorHandler) :
  routers st !! r = Some R -> chi R = Some m -> muxes st !! m = Some M ->
  exists st',
    (Router_Method r method pattern h ;; Router_SetErrorHandler r handler) st
      = Some (tt, st')
    /\ (exists M', muxes st' !! m = Some M'
          /\ routes M' = routes M ++ [mkRoute method pattern (Router_adapt r h)])
    /\ forall fuel w req s e s',
         h (Request_Context req) w req s = Some (Some e, s') ->
         ServeHTTP (S fuel) st' (Router_adapt r h) w req s = handler w req e s'.
Proof.
  intros HR Hc HM.
  pose proof (lookup_lt_Some _ _ _ HR) as Hr.
  pose proof (lookup_lt_Some _ _ _ HM) as Hm.
  eexists. split; [|split].
  - rewrite (bind_Some _ _ _ _ _ (Router_Method_Some _ _ _ _ _ _ _ _ HR Hc HM)).
    unfold Router_SetErrorHandler. apply assign_Some. exact HR.
  - eexists. split.
    + simpl. now apply list_lookup_insert_eq.
    + reflexivity.
  - intros fuel w req s e s' Hh.
    rewrite (ServeHTTP_adapt _ r
               {| chi := chi R; errHandler := handler;
                  routerBuilder := routerBuilder R |}).
    + unfold AdaptHandler. rewrite (bind_Some _ _ _ _ _ Hh). reflexivity.
    + simpl. now apply list_lookup_insert_eq.
Qed.

(** ** Sub-scopes *)

Lemma call_Builder_Some st b :
  call_Builder (Some b) st =
    Some (fst (b (muxes st)),
          {| routers := routers st; muxes := snd (b (muxes st)) |}).
Proof.
  unfold call_Builder. simpl must. unfold bind, ret.
  now destruct (b (muxes st)).
Qed.

Lemma call_Builder_nil st : call_Builder None st = None.
Proof. reflexivity. Qed.

Lemma Mux_Mount_routers c pattern h st u st' :
  Mux_Mount c pattern h st = Some (u, st') -> routers st' = routers st.
Proof.
  unfold Mux_Mount. destruct c as [m|]; [|discriminate].
  destruct h as [h'|]; [|discriminate]. simpl must.
  unfold bind, ret, update_Mux.
  destruct (muxes st !! m); [|discriminate].
  intros H. injection H as _ <-. reflexivity.
Qed.

Lemma Router_Group_unfold st p P b fn :
  routers st !! p = Some P -> routerBuilder P = Some b ->
  Router_Group p fn st =
    (fn (List.length (routers st)) ;;
     P' <- deref p ;;
     Sub <- deref (List.length (routers st)) ;;
     Mux_Mount (chi P') "/" (as_Handler (chi Sub)) ;;
     ret (List.length (routers st))) (scope_entry st P b).
Proof.
  intros HP Hb. unfold Router_Group.
  rewrite (bind_Some _ _ _ _ _ (deref_Some _ _ _ HP)).
  rewrite Hb, (bind_Some _ _ _ _ _ (call_Builder_Some _ _)).
  erewrite bind_Some by (apply deref_Some; simpl; exact HP).
  reflexivity.
Qed.

Lemma Router_Route_unfold st p P b pattern fn :
  routers st !! p = Some P -> routerBuilder P = Some b ->
  Router_Route p pattern fn st =
    (fn (List.length (routers st)) ;;
     P' <- deref p ;;
     Sub <- deref (List.length (routers st)) ;;
     Mux_Mount (chi P') pattern (as_Handler (chi Sub))) (scope_entry st P b).
Proof.
  intros HP Hb. unfold Router_Route.
  rewrite (bind_Some _ _ _ _ _ (deref_Some _ _ _ HP)).
  rewrite Hb, (bind_Some _ _ _ _ _ (call_Builder_Some _ _)).
  erewrite bind_Some by (apply deref_Some; simpl; exact HP).
  reflexivity.
Qed.

Lemma scope_entry_sub st P b :
  routers (scope_entry st P b) !! List.length (routers st)
    = Some {| chi := fst (b (muxes st)); errHandler := errHandler P;
              routerBuilder := None |}.
Proof. simpl. apply list_lookup_middle. reflexivity. Qed.

(** After the callback and the mount, the new wrapper still holds the
    error handler it was created with, if the callback kept it. *)
Lemma scope_exit {A} st P b sub (fn : RouterRef -> Cfg unit) (rest : Cfg A) a st1 :
  sub = List.length (routers st) ->
  keeps_errHandler sub (fn sub) ->
  (forall s x s', rest s = Some (x, s') -> routers s' = routers s) ->
  (fn sub ;; rest) (scope_entry st P b) = Some (a, st1) ->
  errHandler <$> (routers st1 !! sub) = Some (errHandler P).
Proof.
  intros -> Hk Hrest H.
  apply bind_inv in H as ([] & s1 & Hfn & H).
  rewrite (Hrest _ _ _ H), (Hk _ _ Hfn), scope_entry_sub. reflexivity.
Qed.

Lemma deref_inv st r R st' : deref r st = Some (R, st') -> st' = st.
Proof.
  unfold deref. destruct (routers st !! r); [|discriminate].
  intros H. now injection H as _ <-.
Qed.

Lemma mount_tail_routers {A} p sub pattern (k : Cfg A) s x s' :
  (forall s0 x0 s1, k s0 = Some (x0, s1) -> s1 = s0) ->
  (P' <- deref p ;;
   Sub <- deref sub ;;
   Mux_Mount (chi P') pattern (as_Handler (chi Sub)) ;; k) s = Some (x, s') ->
  routers s' = routers s.
Proof.
  intros Hk H.
  apply bind_inv in H as (P' & s1 & H1 & H). apply deref_inv in H1 as ->.
  apply bind_inv in H as (Sub & s2 & H2 & H). apply deref_inv in H2 as ->.
  apply bind_inv in H as (u & s3 & H3 & H).
  apply Mux_Mount_routers in H3. apply Hk in H as ->. exact H3.
Qed.

Lemma SetErrorHandler_other st p handler st2 sub :
  Router_SetErrorHandler p handler st = Some (tt, st2) ->
  p <> sub -> routers st2 !! sub = routers st !! sub.
Proof.
  unfold Router_SetErrorHandler, assign. intros H Hne.
  apply bind_inv in H as (R & s1 & Hd & H).
  unfold deref in Hd. destruct (routers st !! p); [|discriminate].
  injection Hd as <- <-. injection H as <-. simpl.
  now apply list_lookup_insert_ne.
Qed.

Lemma adapt_fails_to st sub eh h w req s e s' fuel :
  errHandler <$> (routers st !! sub) = Some eh ->
  h (Request_Context req) w req s = Some (Some e, s') ->
  ServeHTTP (S fuel) st (Router_adapt sub h) w req s = eh w req e s'.
Proof.
  intros Hsub Hh. destruct (routers st !! sub) as [Sub|] eqn:E; [|discriminate].
  injection Hsub as <-.
  rewrite (ServeHTTP_adapt _ _ _ _ _ E). unfold AdaptHandler.
  now rewrite (bind_Some _ _ _ _ _ Hh).
Qed.

(** C3, as the code has it.  A sub-scope made by [Group] or [Route]
    starts with the error handler the parent holds at that moment, and
    [SetErrorHandler] on the parent afterwards leaves the sub-scope's
    wrapper as it is, whatever the callback did.  So a handler registered
    on the sub-scope, by a callback that does not itself replace the
    sub-scope's error handler, reaches the parent's handler of creation
    time when it fails, before and after the parent is given another one. *)
Theorem subscope_keeps_errHandler (st : Store) (p : RouterRef) (P : Router)
  (b : Builder) (fn : RouterRef -> Cfg unit) (pattern : string)
  (handler : ErrorHandler) :
  routers st !! p = Some P ->
  routerBuilder P = Some b ->
  (forall sub st1 st2,
     Router_Group p fn st = Some (sub, st1) ->
     Router_SetErrorHandler p handler st1 = Some (tt, st2) ->
     sub = List.length (routers st)
     /\ routers st2 !! sub = routers st1 !! sub
     /\ (keeps_errHandler sub (fn sub) ->
         forall h w req s e s' fuel,
           h (Request_Context req) w req s = Some (Some e, s') ->
           ServeHTTP (S fuel) st1 (Router_adapt sub h) w req s = errHandler P w req e s'
           /\ ServeHTTP (S fuel) st2 (Router_adapt sub h) w req s
                = errHandler P w req e s'))
  /\ (forall sub st1 st2,
     Router_Route p pattern fn st = Some (tt, st1) ->
     Router_SetErrorHandler p handler st1 = Some (tt, st2) ->
     sub = List.length (routers st) ->
     routers st2 !! sub = routers st1 !! sub
     /\ (keeps_errHandler sub (fn sub) ->
         forall h w req s e s' fuel,
           h (Request_Context req) w req s = Some (Some e, s') ->
           ServeHTTP (S fuel) st1 (Router_adapt sub h) w req s = errHandler P w req e s'
           /\ ServeHTTP (S fuel) st2 (Router_adapt sub h) w req s
                = errHandler P w req e s')).
Proof.
  intros HP Hb.
  pose proof (lookup_lt_Some _ _ _ HP) as Hlt.
  split.
  - intros sub st1 st2 HG HS.
    rewrite (Router_Group_unfold _ _ _ _ _ HP Hb) in HG.
    assert (sub = List.length (routers st)) as ->.
    { apply bind_inv in HG as (u & s1 & _ & HG).
      apply bind_inv in HG as (P' & s2 & _ & HG).
      apply bind_inv in HG as (Sub & s3 & _ & HG).
      apply bind_inv in HG as (u' & s4 & _ & HG).
      now injection HG as <- _. }
    assert (routers st2 !! List.length (routers st)
            = routers st1 !! List.length (routers st)) as Hframe.
    { apply (SetErrorHandler_other _ _ _ _ _ HS). lia. }
    split; [reflexivity|]. split; [exact Hframe|].
    intros Hk h w req s e s' fuel Hh.
    assert (errHandler <$> (routers st1 !! List.length (routers st))
            = Some (errHandler P)) as H1.
    { eapply scope_exit; [reflexivity | exact Hk | | exact HG].
      intros s0 x s1 Hrest. eapply mount_tail_routers; [|exact Hrest].
      intros s5 x0 s6 Hret. now injection Hret as _ <-. }
    split.
    + now apply adapt_fails_to.
    + apply adapt_fails_to; [|exact Hh]. now rewrite Hframe.
  - intros sub st1 st2 HR HS ->.
    rewrite (Router_Route_unfold _ _ _ _ _ _ HP Hb) in HR.
    assert (routers st2 !! List.length (routers st)
            = routers st1 !! List.length (routers st)) as Hframe.
    { apply (SetErrorHandler_other _ _ _ _ _ HS). lia. }
    split; [exact Hframe|].
    intros Hk h w req s e s' fuel Hh.
    assert (errHandler <$> (routers st1 !! List.length (routers st))
            = Some (errHandler P)) as H1.
    { eapply scope_exit; [reflexivity | exact Hk | | exact HR].
      intros s0 x s1 Hrest.
      apply bind_inv in Hrest as (P' & s2 & H2 & Hrest). apply deref_inv in H2 as ->.
      apply bind_inv in Hrest as (Sub & s3 & H3 & Hrest). apply deref_inv in H3 as ->.
      now apply Mux_Mount_routers in Hrest. }
    split.
    + now apply adapt_fails_to.
    + apply adapt_fails_to; [|exact Hh]. now rewrite Hframe.
Qed.

(** ** Nested sub-scopes *)

Lemma Router_Group_nil_builder st r R fn :
  routers st !! r = Some R -> routerBuilder R = None ->
  Router_Group r fn st = None.
Proof.
  intros HR Hb. unfold Router_Group.
  rewrite (bind_Some _ _ _ _ _ (deref_Some _ _ _ HR)), Hb.
  now apply bind_None.
Qed.

Lemma Router_Route_nil_builder st r R pattern fn :
  routers st !! r = Some R -> routerBuilder R = None ->
  Router_Route r pattern fn st = None.
Proof.
  intros HR Hb. unfold Router_Route.
  rewrite (bind_Some _ _ _ _ _ (deref_Some _ _ _ HR)), Hb.
  now apply bind_None.
Qed.

(** C9. On a wrapper made by [New] (or any wrapper with a construction
    strategy and a live chi router) one level of [Group] works, and the
    wrapper it makes has a nil [routerBuilder]: [Group] and [Route] on
    that wrapper panic, whether they are called on the returned wrapper
    or inside the configuration callback of [Group] or of [Route]. *)
Theorem nested_subscope_panics (st : Store) (p : RouterRef) (P : Router)
  (b : Builder) (m c : MuxRef) (ms : list Mux) (M : Mux) :
  routers st !! p = Some P ->
  routerBuilder P = Some b ->
  chi P = Some m ->
  b (muxes st) = (Some c, ms) ->
  ms !! m = Some M ->
  (exists sub st1,
      Router_Group p (fun _ => ret tt) st = Some (sub, st1)
      /\ routerBuilder <$> (routers st1 !! sub) = Some None
      /\ (forall fn, Router_Group sub fn st1 = None)
      /\ (forall pattern fn, Router_Route sub pattern fn st1 = None))
  /\ (forall fn, Router_Group p (fun sub => Router_Group sub fn ;; ret tt) st = None)
  /\ (forall pattern fn, Router_Group p (fun sub => Router_Route sub pattern fn) st = None)
  /\ (forall pattern fn,
        Router_Route p pattern (fun sub => Router_Group sub fn ;; ret tt) st = None)
  /\ (forall pattern pattern' fn,
        Router_Route p pattern (fun sub => Router_Route sub pattern' fn) st = None).
Proof.
  intros HP Hb Hc Hbm HM.
  pose proof (lookup_lt_Some _ _ _ HP) as Hlt.
  pose proof (scope_entry_sub st P b) as Hsub.
  split; [|repeat split].
  - rewrite (Router_Group_unfold _ _ _ _ _ HP Hb).
    assert (routers (scope_entry st P b) !! p = Some P) as HP'.
    { simpl. rewrite lookup_app_l by exact Hlt. exact HP. }
    unfold bind at 1. unfold ret at 1.
    rewrite (bind_Some _ _ _ _ _ (deref_Some _ _ _ HP')).
    rewrite (bind_Some _ _ _ _ _ (deref_Some _ _ _ Hsub)).
    rewrite Hc. cbn [chi as_Handler]. rewrite Hbm. cbn [fst as_Handler].
    unfold Mux_Mount. cbn [must]. unfold bind at 2 3. unfold ret at 1 2.
    erewrite bind_Some; cycle 1.
    { apply update_Mux_Some. simpl. rewrite Hbm. simpl. exact HM. }
    unfold ret. do 2 eexists. split; [reflexivity|].
    cbn [routers]. rewrite Hbm in Hsub. cbn [fst] in Hsub.
    split; [|split].
    + rewrite Hsub. reflexivity.
    + intros fn. eapply Router_Group_nil_builder; [exact Hsub | reflexivity].
    + intros pattern fn. eapply Router_Route_nil_builder; [exact Hsub | reflexivity].
  - intros fn. rewrite (Router_Group_unfold _ _ _ _ _ HP Hb).
    apply bind_None, bind_None.
    eapply Router_Group_nil_builder; [exact Hsub | reflexivity].
  - intros pattern fn. rewrite (Router_Group_unfold _ _ _ _ _ HP Hb).
    apply bind_None.
    eapply Router_Route_nil_builder; [exact Hsub | reflexivity].
  - intros pattern fn. rewrite (Router_Route_unfold _ _ _ _ _ _ HP Hb).
    apply bind_None, bind_None.
    eapply Router_Group_nil_builder; [exact Hsub | reflexivity].
  - intros pattern pattern' fn. rewrite (Router_Route_unfold _ _ _ _ _ _ HP Hb).
    apply bind_None.
    eapply Router_Route_nil_builder; [exact Hsub | reflexivity].
Qed.

(** ** Construction *)

Lemma insert_last {A} (l : list A) (x y : A) :
  <[List.length l := y]> (l ++ [x]) = l ++ [y].
Proof.
  rewrite <- (Nat.add_0_r (List.length l)) at 1.
  now rewrite insert_app_r.
Qed.

Lemma assign_last l R ms f :
  assign (List.length l) f {| routers := l ++ [R]; muxes := ms |} =
    Some (tt, {| routers := l ++ [f R]; muxes := ms |}).
Proof.
  rewrite (assign_Some _ _ R).
  - simpl. now rewrite insert_last.
  - simpl. now apply list_lookup_middle.
Qed.

(** Options only touch the wrapper under construction: its chi router is
    still unset, and no chi router has been created, when they are done. *)
Lemma apply_options_last os : forall l c eh d ms,
  apply_options (map option_of os) (List.length l)
    {| routers := l ++ [{| chi := c; errHandler := eh; routerBuilder := Some d |}];
       muxes := ms |} =
  Some (tt, {| routers := l ++ [{| chi := c;
                                    errHandler := last_errHandler os eh;
                                    routerBuilder := Some (last_builder os d) |}];
               muxes := ms |}).
Proof.
  induction os as [|o os IH]; intros l c eh d ms; [reflexivity|].
  cbn [map apply_options].
  destruct o as [handler|builder]; cbn [option_of];
    unfold WithErrorHandler, WithRouterBuilder;
    rewrite (bind_Some _ _ _ _ _ (assign_last _ _ _ _)); cbn; apply IH.
Qed.

Lemma last_builder_after os1 b ehs d :
  last_builder (os1 ++ optRouterBuilder b :: map optErrorHandler ehs) d = b.
Proof.
  unfold last_builder. rewrite fold_left_app. cbn [fold_left].
  generalize (fold_left (fun acc o => match o with
                                      | optRouterBuilder b0 => b0
                                      | _ => acc
                                      end) os1 d).
  intros _. induction ehs as [|eh ehs IH]; [reflexivity | exact IH].
Qed.

Lemma last_builder_none ehs d : last_builder (map optErrorHandler ehs) d = d.
Proof. induction ehs as [|eh ehs IH]; [reflexivity | exact IH]. Qed.

(** C6. [New] on any list of exported options: the wrapper starts from
    the default construction strategy and the default error handler, the
    options replace them in order, and only then one chi router is made,
    by the selected strategy run once on the chi routers that existed
    before, so no earlier strategy has run.  The selected strategy is the
    one of the last [WithRouterBuilder], whatever came before it, and the
    default one when there is none. *)
Theorem New_applies_options_then_builds (os : list opt) (st : Store) :
  New (map option_of os) st =
    Some (List.length (routers st),
          {| routers := routers st ++
               [{| chi := fst (last_builder os defaultRouterBuilder (muxes st));
                   errHandler := last_errHandler os defaultErrorHandler;
                   routerBuilder := Some (last_builder os defaultRouterBuilder) |}];
             muxes := snd (last_builder os defaultRouterBuilder (muxes st)) |})
  /\ (forall os1 b ehs d,
        last_builder (os1 ++ optRouterBuilder b :: map optErrorHandler ehs) d = b)
  /\ (forall ehs d, last_builder (map optErrorHandler ehs) d = d).
Proof.
  split; [|split; [exact last_builder_after | exact last_builder_none]].
  unfold New. unfold bind at 1. unfold new_Router.
  rewrite (bind_Some _ _ _ _ _ (apply_options_last os _ _ _ _ _)).
  erewrite bind_Some by (apply deref_Some; simpl; now apply list_lookup_middle).
  cbn [routerBuilder].
  rewrite (bind_Some _ _ _ _ _ (call_Builder_Some _ _)). cbn [muxes routers].
  rewrite (bind_Some _ _ _ _ _ (assign_last _ _ _ _)).
  reflexivity.
Qed.

(** ** Middleware order *)

Lemma ServeHTTP_useClosure st r R middleware next fuel :
  routers st !! r = Some R ->
  ServeHTTP (S fuel) st (useClosure r middleware next)
    = link (errHandler R) middleware (ServeHTTP fuel st next).
Proof.
  intros H. simpl. rewrite (call_errHandler_Some _ _ _ H). reflexivity.
Qed.

Lemma ServeHTTP_muxHandler st m M fuel :
  muxes st !! m = Some M ->
  ServeHTTP (S fuel) st (muxHandler m)
    = ServeHTTP fuel st (Chain (middlewares M) (routeHTTP m)).
Proof. intros H. simpl. rewrite H. reflexivity. Qed.

Lemma ServeHTTP_Chain st r R mws endpoint k :
  routers st !! r = Some R ->
  ServeHTTP (List.length mws + k) st (Chain (map (mkMiddleware r) mws) endpoint)
    = nested (errHandler R) mws (ServeHTTP k st endpoint).
Proof.
  intros H. induction mws as [|mw mws IH]; [reflexivity|].
  change (ServeHTTP (S (List.length mws + k)) st
            (useClosure r mw (Chain (map (mkMiddleware r) mws) endpoint))
          = link (errHandler R) mw (nested (errHandler R) mws (ServeHTTP k st endpoint))).
  rewrite (ServeHTTP_useClosure _ _ _ _ _ _ H), IH. reflexivity.
Qed.

Lemma Router_Use_Some st r R m M mws :
  routers st !! r = Some R -> chi R = Some m -> muxes st !! m = Some M ->
  Router_Use r mws st =
    Some (tt, {| routers := routers st;
                 muxes := <[m := {| middlewares := middlewares M ++ map (mkMiddleware r) mws;
                                    routes := routes M;
                                    mounts := mounts M;
                                    notFoundHandler := notFoundHandler M;
                                    methodNotAllowedHandler := methodNotAllowedHandler M |}]>
                            (muxes st) |}).
Proof.
  intros HR Hc HM. unfold Router_Use.
  rewrite (bind_Some _ _ _ _ _ (deref_Some _ _ _ HR)).
  rewrite Hc. unfold Mux_Use. simpl must.
  unfold bind at 1. unfold ret at 1.
  now rewrite (update_Mux_Some _ _ _ _ HM).
Qed.

Lemma run_all_app a b s : run_all (a ++ b) s = (run_all a ;; run_all b) s.
Proof.
  revert s. induction a as [|x a IH]; intros s; [reflexivity|].
  cbn [app run_all]. unfold bind.
  destruct (x s) as [[[] s1]|]; [|reflexivity]. rewrite IH. reflexivity.
Qed.

(** Pre-logic runs outside in, post-logic inside out. *)
Lemma nested_around eh (pps : list (Act unit * Act unit)) endpoint w req s :
  nested eh (map (fun pp => around (fst pp) (snd pp)) pps) endpoint w req s
    = (run_all (map fst pps) ;; endpoint w req ;; run_all (rev (map snd pps))) s.
Proof.
  revert s. induction pps as [|[pre post] pps IH]; intros s.
  - cbn. unfold bind, ret. destruct (endpoint w req s) as [[[] s1]|]; reflexivity.
  - cbn [map nested fold_right fst snd rev run_all].
    fold (nested eh (map (fun pp => around (fst pp) (snd pp)) pps) endpoint).
    unfold link, around. unfold bind.
    destruct (pre s) as [[[] s1]|]; [|reflexivity].
    rewrite IH. unfold bind, ret.
    destruct (run_all (map fst pps) s1) as [[[] s2]|]; [|reflexivity].
    destruct (endpoint w req s2) as [[[] s3]|]; [|reflexivity].
    rewrite run_all_app. unfold bind. cbn [run_all].
    destruct (run_all (rev (map snd pps)) s3) as [[[] s4]|]; [|reflexivity].
    unfold bind, ret. destruct (post s4) as [[[] s5]|]; reflexivity.
Qed.

(** C4. Middlewares registered through [Use], in one call or several, sit
    in the router in registration order, each position holding the function
    registered there, and a request runs them as nested decorators: the
    first registered is outermost, down to the routing endpoint.  For
    middlewares with logic before and after the wrapped handler, the
    pre-logic runs in registration order, then the endpoint, then the
    post-logic in reverse order. *)
Theorem Use_nests_in_registration_order (st : Store) (r : RouterRef)
  (R : Router) (m : MuxRef) (M : Mux) (before mws : list (Handler -> Handler)) :
  routers st !! r = Some R -> chi R = Some m -> muxes st !! m = Some M ->
  middlewares M = map (mkMiddleware r) before ->
  exists st',
    Router_Use r mws st = Some (tt, st')
    /\ (exists M', muxes st' !! m = Some M'
          /\ middlewares M' = map (mkMiddleware r) (before ++ mws))
    /\ (forall k,
          ServeHTTP (S (List.length (before ++ mws) + k)) st' (muxHandler m)
            = nested (errHandler R) (before ++ mws) (ServeHTTP k st' (routeHTTP m)))
    /\ (forall eh (pps : list (Act unit * Act unit)) endpoint w req s,
          nested eh (map (fun pp => around (fst pp) (snd pp)) pps) endpoint w req s
            = (run_all (map fst pps) ;; endpoint w req ;;
               run_all (rev (map snd pps))) s).
Proof.
  intros HR Hc HM Hbefore.
  pose proof (lookup_lt_Some _ _ _ HM) as Hm.
  eexists. split; [exact (Router_Use_Some _ _ _ _ _ mws HR Hc HM)|].
  split; [|split].
  - eexists. split.
    + simpl. now apply list_lookup_insert_eq.
    + simpl. now rewrite Hbefore, map_app.
  - intros k. erewrite ServeHTTP_muxHandler
      by (simpl; now apply list_lookup_insert_eq).
    cbn [middlewares]. rewrite Hbefore, <- map_app.
    now apply ServeHTTP_Chain.
  - intros eh pps endpoint w req s. apply nested_around.
Qed.

(** ** A middleware that fails *)

(** C5. A middleware registered through [Use] that returns an error without
    calling its [next]: whatever is underneath it in the chain does not run,
    and the outcome is that of the wrapper's error handler on that error.
    With such a middleware registered first, a request served by the router
    does not reach the route handler registered afterwards. *)
Theorem failing_middleware_short_circuits (st : Store) (r : RouterRef)
  (R : Router) (m : MuxRef) (M : Mux)
  (mw : Handler -> Handler) (more : list (Handler -> Handler))
  (method pattern : string) (h : Handler)
  (w : ResponseWriter) (req : Request) (s s' : World) (e : error) :
  routers st !! r = Some R -> chi R = Some m -> muxes st !! m = Some M ->
  middlewares M = [] ->
  (forall nx, mw nx (Request_Context req) w req s = Some (Some e, s')) ->
  (forall next fuel,
     ServeHTTP (S fuel) st (apply_Middleware (mkMiddleware r mw) next) w req s
       = errHandler R w req e s')
  /\ exists st',
       (Router_Use r (mw :: more) ;; Router_Method r method pattern h) st
         = Some (tt, st')
       /\ forall fuel,
            Router_ServeHTTP (S (S fuel)) st' r w req s = errHandler R w req e s'.
Proof.
  intros HR Hc HM Hnone Hmw.
  pose proof (lookup_lt_Some _ _ _ HM) as Hm.
  assert (forall st0 next fuel, routers st0 !! r = Some R ->
            ServeHTTP (S fuel) st0 (useClosure r mw next) w req s
              = errHandler R w req e s') as Hlink.
  { intros st0 next fuel H0. rewrite (ServeHTTP_useClosure _ _ _ _ _ _ H0).
    unfold link. now rewrite (bind_Some _ _ _ _ _ (Hmw _)). }
  split.
  - intros next fuel. now apply Hlink.
  - eexists. split.
    + rewrite (bind_Some _ _ _ _ _ (Router_Use_Some _ _ _ _ _ _ HR Hc HM)).
      eapply Router_Method_Some; [exact HR | exact Hc |].
      simpl. now apply list_lookup_insert_eq.
    + intros fuel. unfold Router_ServeHTTP. cbn [routers]. rewrite HR, Hc.
      erewrite ServeHTTP_muxHandler
        by (simpl; rewrite list_insert_insert_eq; now apply list_lookup_insert_eq).
      cbn [middlewares]. rewrite Hnone. cbn [app map Chain fold_right apply_Middleware
                                             mw_router mw_func].
      now apply Hlink.
Qed.

(** ** AdaptMiddleware *)

Lemma run_steps_app a b next s :
  run_steps (a ++ b) next s = (run_steps a next ;; run_steps b next) s.
Proof.
  revert s. induction a as [|x a IH]; intros s; [reflexivity|].
  destruct x as [f|w r]; cbn [app run_steps]; unfold bind.
  - unfold modify. rewrite IH. reflexivity.
  - destruct (next w r s) as [[[] s1]|]; [|reflexivity]. rewrite IH. reflexivity.
Qed.

(** Steps that never forward return, and leave the captured variables. *)
Lemma run_steps_own steps next s :
  existsb is_Forward steps = false ->
  exists s', run_steps steps next s = Some (tt, s') /\ cells s' = cells s.
Proof.
  revert s. induction steps as [|x steps IH]; intros s H.
  - now exists s.
  - destruct x as [f|w r]; [|discriminate]. cbn [existsb is_Forward orb] in H.
    cbn [run_steps]. unfold bind, modify.
    destruct (IH {| events := f (events s); cells := cells s |} H) as (s' & Hrun & Hc).
    exists s'. now split.
Qed.

(** C10. [AdaptMiddleware] on a conventional middleware that does not
    call the handler it is given on a request (its outcome there is the
    same for every handler, and it leaves captured variables alone): the
    adapted middleware returns nil for every [next].  For a middleware
    described by the steps it takes: without a forwarding step the result
    is nil, and if the last forwarding step calls [next] and that call
    returns [e] (nil or not), the adapted middleware returns [e]. *)
Theorem AdaptMiddleware_reports_last_next (next : Handler)
  (c : Context) (w : ResponseWriter) (r : Request) (s : World) :
  (forall (stdMiddleware : HandlerFunc -> HandlerFunc) s1,
     (forall nx, stdMiddleware nx w r
                   {| events := events s; cells := cells s ++ [None] |} = Some (tt, s1)) ->
     cells s1 = cells s ++ [None] ->
     AdaptMiddleware stdMiddleware next c w r s = Some (None, s1))
  /\ (forall script,
        existsb is_Forward (script w r) = false ->
        exists s', AdaptMiddleware (scripted script) next c w r s = Some (None, s'))
  /\ (forall script pre w' r' post s1 e s2,
        script w r = pre ++ Forward w' r' :: post ->
        existsb is_Forward post = false ->
        run_steps pre (capture next (List.length (cells s)))
          {| events := events s; cells := cells s ++ [None] |} = Some (tt, s1) ->
        next (Request_Context r') w' r' s1 = Some (e, s2) ->
        List.length (cells s) < List.length (cells s2) ->
        exists s', AdaptMiddleware (scripted script) next c w r s = Some (e, s')).
Proof.
  unfold AdaptMiddleware. unfold bind at 1 3 5. unfold declare_err.
  split; [|split].
  - intros stdMiddleware s1 Hsame Hc.
    rewrite (bind_Some _ _ _ _ _ (Hsame _)). unfold load_err. rewrite Hc.
    now rewrite list_lookup_middle by reflexivity.
  - intros script Hno. unfold scripted.
    destruct (run_steps_own (script w r) (capture next (List.length (cells s)))
                {| events := events s; cells := cells s ++ [None] |} Hno)
      as (s' & Hrun & Hc).
    rewrite (bind_Some _ _ _ _ _ Hrun). unfold load_err. rewrite Hc. cbn [cells].
    rewrite list_lookup_middle by reflexivity. now exists s'.
  - intros script pre w' r' post s1 e s2 Hscript Hpost Hpre Hnext Hlive.
    unfold scripted. rewrite Hscript.
    set (K := capture next (List.length (cells s))) in *.
    set (s2' := {| events := events s2;
                   cells := <[List.length (cells s) := e]> (cells s2) |}).
    destruct (run_steps_own post K s2' Hpost) as (s3 & Hrun & Hc).
    assert (run_steps (pre ++ Forward w' r' :: post) K
              {| events := events s; cells := cells s ++ [None] |} = Some (tt, s3)) as Hall.
    { rewrite run_steps_app, (bind_Some _ _ _ _ _ Hpre). cbn [run_steps].
      assert (K w' r' s1 = Some (tt, s2')) as HK.
      { unfold K, capture. now rewrite (bind_Some _ _ _ _ _ Hnext). }
      now rewrite (bind_Some _ _ _ _ _ HK). }
    rewrite (bind_Some _ _ _ _ _ Hall). unfold load_err. rewrite Hc.
    unfold s2'. cbn [cells]. rewrite list_lookup_insert_eq by exact Hlive.
    now exists s3.
Qed.

(** * The properties on the scenarios of the test suite *)

Example New_in_empty_store : New [] no_store = Some (0, new_store).
Proof. reflexivity. Qed.

(** [TestRouter_ServeHTTP]: a route that writes "ok" with status 200. *)
Example default_construction_serves_ok :
  exists st s,
    Router_Get 0 "/test" writes_ok new_store = Some (tt, st)
    /\ Router_ServeHTTP 3 st 0 7 (GET "/test") fresh_world = Some (tt, s)
    /\ status_of 7 (events s) = 200 /\ body_of 7 (events s) = "ok".
Proof. do 2 eexists. repeat split; reflexivity. Qed.

Lemma adapter_error_path_witness :
  routers new_store !! 0 = Some default_Router
  /\ (writes_ok [] 7 (GET "/test") fresh_world
        = Some (None, {| events := [WriteHeader 7 200; Write 7 "ok"]; cells := [] |})
      /\ ServeHTTP 1 new_store (Router_adapt 0 writes_ok) 7 (GET "/test") fresh_world
        = Some (tt, {| events := [WriteHeader 7 200; Write 7 "ok"]; cells := [] |})
      /\ AdaptHandler writes_ok customHandler 7 (GET "/test") fresh_world
        = Some (tt, {| events := [WriteHeader 7 200; Write 7 "ok"]; cells := [] |}))
  /\ (failing [] 7 (GET "/error") fresh_world = Some (Some test_error, fresh_world)
      /\ ServeHTTP 1 new_store (Router_adapt 0 failing) 7 (GET "/error") fresh_world
        = defaultErrorHandler 7 (GET "/error") test_error fresh_world
      /\ AdaptHandler failing customHandler 7 (GET "/error") fresh_world
        = customHandler 7 (GET "/error") test_error fresh_world).
Proof.
  split; [reflexivity|]. split.
  - split; [reflexivity|].
    apply (proj1 (adapter_error_path new_store 0 default_Router writes_ok
                    customHandler 7 (GET "/test") fresh_world _ 0 eq_refl)).
    reflexivity.
  - split; [reflexivity|].
    apply (proj2 (adapter_error_path new_store 0 default_Router failing
                    customHandler 7 (GET "/error") fresh_world _ 0 eq_refl)).
    reflexivity.
Defined.

(** The claim as the specification words it fails: a route registered
    while the default error handler was bound, then [SetErrorHandler]; the
    failure of that route runs the new handler, not the default one. *)
Lemma registration_time_binding_counterexample :
  exists r st,
    (r <- New [] ;;
     Router_Get r "/error" failing ;;
     Router_SetErrorHandler r customHandler ;;
     ret r) no_store = Some (r, st)
    /\ Router_ServeHTTP 3 st r 7 (GET "/error") fresh_world
         = customHandler 7 (GET "/error") test_error fresh_world
    /\ Router_ServeHTTP 3 st r 7 (GET "/error") fresh_world
         <> defaultErrorHandler 7 (GET "/error") test_error fresh_world.
Proof.
  do 2 eexists. split; [reflexivity|]. split; [reflexivity|].
  vm_compute. discriminate.
Qed.

Lemma errHandler_read_at_request_time_witness :
  routers new_store !! 0 = Some default_Router
  /\ chi default_Router = Some 0
  /\ muxes new_store !! 0 = Some NewMux
  /\ exists st',
       (Router_Method 0 "GET" "/error" failing ;;
        Router_SetErrorHandler 0 customHandler) new_store = Some (tt, st')
       /\ (exists M', muxes st' !! 0 = Some M'
             /\ routes M' = routes NewMux
                              ++ [mkRoute "GET" "/error" (Router_adapt 0 failing)])
       /\ forall fuel w req s e s',
            failing (Request_Context req) w req s = Some (Some e, s') ->
            ServeHTTP (S fuel) st' (Router_adapt 0 failing) w req s
              = customHandler w req e s'.
Proof.
  split; [reflexivity|]. split; [reflexivity|]. split; [reflexivity|].
  apply (errHandler_read_at_request_time new_store 0 default_Router 0 NewMux
           "GET" "/error" failing customHandler); reflexivity.
Defined.

(** Registering a route does not touch any wrapper. *)
Lemma Router_Method_keeps r r' method pattern h :
  keeps_errHandler r' (Router_Method r method pattern h).
Proof.
  intros st st' H. unfold Router_Method in H.
  apply bind_inv in H as (R & s1 & H1 & H). apply deref_inv in H1 as ->.
  unfold Mux_Method in H. destruct (chi R) as [m|]; [|discriminate].
  cbn [must] in H. unfold bind at 1, ret at 1, update_Mux in H.
  destruct (muxes st !! m); [|discriminate].
  injection H as <-. reflexivity.
Qed.

(** The claim as the specification words it fails: a handler registered
    inside the callback of [Group], the callback then giving the sub-scope
    an error handler of its own; the failure runs that one, not the
    handler the parent held when the sub-scope was made. *)
Lemma subscope_creation_time_binding_counterexample :
  exists sub st,
    Router_Group 0 (fun g => Router_Get g "/g" failing ;;
                             Router_SetErrorHandler g customHandler) new_store
      = Some (sub, st)
    /\ errHandler default_Router = defaultErrorHandler
    /\ Router_ServeHTTP 6 st 0 7 (GET "/g") fresh_world
         = customHandler 7 (GET "/g") test_error fresh_world
    /\ Router_ServeHTTP 6 st 0 7 (GET "/g") fresh_world
         <> defaultErrorHandler 7 (GET "/g") test_error fresh_world.
Proof.
  do 2 eexists. split; [reflexivity|]. split; [reflexivity|].
  split; [reflexivity|]. vm_compute. discriminate.
Qed.

Lemma subscope_keeps_errHandler_witness :
  routers new_store !! 0 = Some default_Router
  /\ routerBuilder default_Router = Some defaultRouterBuilder
  /\ failing [] 7 (GET "/g") fresh_world = Some (Some test_error, fresh_world)
  /\ (exists sub st1 st2,
        Router_Group 0 (fun g => Router_Get g "/g" failing) new_store = Some (sub, st1)
        /\ Router_SetErrorHandler 0 customHandler st1 = Some (tt, st2)
        /\ ServeHTTP 1 st2 (Router_adapt sub failing) 7 (GET "/g") fresh_world
             = defaultErrorHandler 7 (GET "/g") test_error fresh_world)
  /\ (exists st1 st2,
        Router_Route 0 "/api" (fun g => Router_Get g "/g" failing) new_store
          = Some (tt, st1)
        /\ Router_SetErrorHandler 0 customHandler st1 = Some (tt, st2)
        /\ ServeHTTP 1 st2 (Router_adapt 1 failing) 7 (GET "/g") fresh_world
             = defaultErrorHandler 7 (GET "/g") test_error fresh_world).
Proof.
  pose proof (subscope_keeps_errHandler new_store 0 default_Router
                defaultRouterBuilder (fun g => Router_Get g "/g" failing) "/api"
                customHandler eq_refl eq_refl) as [HG HR].
  split; [reflexivity|]. split; [reflexivity|]. split; [reflexivity|]. split.
  - do 3 eexists. split; [reflexivity|]. split; [reflexivity|].
    exact (proj2 (proj2 (proj2 (HG _ _ _ eq_refl eq_refl))
                    (Router_Method_keeps 1 1 "GET" "/g" failing)
                    failing 7 (GET "/g") fresh_world test_error fresh_world 0 eq_refl)).
  - do 2 eexists. split; [reflexivity|]. split; [reflexivity|].
    exact (proj2 (proj2 (HR 1 _ _ eq_refl eq_refl eq_refl)
                    (Router_Method_keeps 1 1 "GET" "/g" failing)
                    failing 7 (GET "/g") fresh_world test_error fresh_world 0 eq_refl)).
Defined.

(** Served through the parent, as a request would be. *)
Example subscope_served_through_parent :
  exists st,
    (Router_Route 0 "/api" (fun api => Router_Get api "/test" failing) ;;
     Router_SetErrorHandler 0 customHandler ;;
     Router_Get 0 "/error" failing) new_store = Some (tt, st)
    /\ Router_ServeHTTP 6 st 0 7 (GET "/api/test") fresh_world
         = defaultErrorHandler 7 (GET "/api/test") test_error fresh_world
    /\ Router_ServeHTTP 6 st 0 7 (GET "/error") fresh_world
         = customHandler 7 (GET "/error") test_error fresh_world.
Proof. eexists. repeat split; reflexivity. Qed.

Lemma Use_nests_in_registration_order_witness :
  routers new_store !! 0 = Some default_Router
  /\ chi default_Router = Some 0
  /\ muxes new_store !! 0 = Some NewMux
  /\ middlewares NewMux = map (mkMiddleware 0) []
  /\ exists st',
       Router_Use 0 [logging "A"; logging "B"; logging "C"] new_store = Some (tt, st')
       /\ (exists M', muxes st' !! 0 = Some M'
             /\ middlewares M'
                = map (mkMiddleware 0) [logging "A"; logging "B"; logging "C"])
       /\ (forall k,
             ServeHTTP (S (3 + k)) st' (muxHandler 0)
               = nested defaultErrorHandler [logging "A"; logging "B"; logging "C"]
                   (ServeHTTP k st' (routeHTTP 0))).
Proof.
  split; [reflexivity|]. split; [reflexivity|]. split; [reflexivity|].
  split; [reflexivity|].
  destruct (Use_nests_in_registration_order new_store 0 default_Router 0 NewMux
              [] [logging "A"; logging "B"; logging "C"]
              eq_refl eq_refl eq_refl eq_refl) as (st' & HU & HM & HS & _).
  exists st'. split; [exact HU|]. split; [exact HM | exact HS].
Defined.

(** [Use(A, B, C)], a route, a request: A in, B in, C in, the handler,
    C out, B out, A out. *)
Example Use_A_B_C_trace :
  exists st,
    (Router_Use 0 [logging "A"; logging "B"; logging "C"] ;;
     Router_Get 0 "/test" writes_ok) new_store = Some (tt, st)
    /\ Router_ServeHTTP 7 st 0 7 (GET "/test") fresh_world
       = Some (tt, {| events := [Mark "A in"; Mark "B in"; Mark "C in";
                                 WriteHeader 7 200; Write 7 "ok";
                                 Mark "C out"; Mark "B out"; Mark "A out"];
                      cells := [] |}).
Proof. eexists. split; reflexivity. Qed.

Lemma failing_middleware_short_circuits_witness :
  routers new_store !! 0 = Some default_Router
  /\ chi default_Router = Some 0
  /\ muxes new_store !! 0 = Some NewMux
  /\ middlewares NewMux = []
  /\ (forall nx, errorMiddleware nx (Request_Context (GET "/test")) 7 (GET "/test")
                   fresh_world
                 = Some (Some (errors_New "middleware error"), fresh_world))
  /\ exists st',
       (Router_Use 0 [errorMiddleware] ;; Router_Method 0 "GET" "/test" writes_ok)
         new_store = Some (tt, st')
       /\ forall fuel,
            Router_ServeHTTP (S (S fuel)) st' 0 7 (GET "/test") fresh_world
              = defaultErrorHandler 7 (GET "/test") (errors_New "middleware error")
                  fresh_world.
Proof.
  split; [reflexivity|]. split; [reflexivity|]. split; [reflexivity|].
  split; [reflexivity|]. split; [reflexivity|].
  exact (proj2 (failing_middleware_short_circuits new_store 0 default_Router 0 NewMux
                  errorMiddleware [] "GET" "/test" writes_ok 7 (GET "/test")
                  fresh_world fresh_world (errors_New "middleware error")
                  eq_refl eq_refl eq_refl eq_refl (fun _ => eq_refl))).
Defined.

Lemma nested_subscope_panics_witness :
  routers new_store !! 0 = Some default_Router
  /\ routerBuilder default_Router = Some defaultRouterBuilder
  /\ chi default_Router = Some 0
  /\ defaultRouterBuilder (muxes new_store) = (Some 1, [NewMux; NewMux])
  /\ [NewMux; NewMux] !! 0 = Some NewMux
  /\ Router_Group 0 (fun sub => Router_Group sub (fun _ => ret tt) ;; ret tt) new_store
       = None
  /\ Router_Route 0 "/api" (fun sub => Router_Route sub "/v1" (fun _ => ret tt)) new_store
       = None.
Proof.
  pose proof (nested_subscope_panics new_store 0 default_Router defaultRouterBuilder
                0 1 [NewMux; NewMux] NewMux eq_refl eq_refl eq_refl eq_refl eq_refl)
    as (_ & HGG & _ & _ & HRR).
  do 5 (split; [reflexivity|]). split; [apply HGG | apply HRR].
Defined.

Lemma AdaptMiddleware_reports_last_next_witness :
  (forall nx, answers_itself nx 7 (GET "/test")
                {| events := []; cells := [None] |}
              = Some (tt, {| events := [WriteHeader 7 404]; cells := [None] |}))
  /\ AdaptMiddleware answers_itself failing [] 7 (GET "/test") fresh_world
       = Some (None, {| events := [WriteHeader 7 404]; cells := [None] |})
  /\ (exists s', AdaptMiddleware (scripted (fun w r => [Forward w r; Forward w r]))
                   failing [] 7 (GET "/test") fresh_world
                 = Some (Some test_error, s')).
Proof.
  pose proof (AdaptMiddleware_reports_last_next failing [] 7 (GET "/test") fresh_world)
    as (Hnever & _ & Hlast).
  split; [reflexivity|]. split.
  - apply Hnever; reflexivity.
  - apply (Hlast (fun w r => [Forward w r; Forward w r])
             [Forward 7 (GET "/test")] 7 (GET "/test") []
             {| events := []; cells := [Some test_error] |} (Some test_error)
             {| events := []; cells := [Some test_error] |});
      try reflexivity.
    simpl. lia.
Defined.

(** * Further properties of the package *)

(** ** Registration leaves the wrappers alone *)






(** ** Middlewares and the error handler *)

(** X2. The links made by [Use] read the wrapper's error handler when the
    request is served, like the routes: a middleware registered before
    [SetErrorHandler] that returns an error reaches the new handler. *)
Theorem Use_errHandler_read_at_request_time (st : Store) (r : RouterRef)
  (R : Router) (m : MuxRef) (M : Mux)
  (mw : Handler -> Handler) (handler : ErrorHandler) :
  routers st !! r = Some R -> chi R = Some m -> muxes st !! m = Some M ->
  exists st',
    (Router_Use r [mw] ;; Router_SetErrorHandler r handler) st = Some (tt, st')
    /\ (exists M', muxes st' !! m = Some M'
          /\ middlewares M' = middlewares M ++ [mkMiddleware r mw])
    /\ forall next fuel w req s e s',
         mw (fun _ w' r' => ServeHTTP fuel st' next w' r' ;; ret None)
            (Request_Context req) w req s = Some (Some e, s') ->
         ServeHTTP (S fuel) st' (apply_Middleware (mkMiddleware r mw) next) w req s
           = handler w req e s'.
Proof.
  intros HR Hc HM.
  pose proof (lookup_lt_Some _ _ _ HR) as Hr.
  pose proof (lookup_lt_Some _ _ _ HM) as Hm.
  eexists. split; [|split].
  - rewrite (bind_Some _ _ _ _ _ (Router_Use_Some _ _ _ _ _ [mw] HR Hc HM)).
    unfold Router_SetErrorHandler. apply assign_Some. exact HR.
  - eexists. split.
    + simpl. now apply list_lookup_insert_eq.
    + reflexivity.
  - intros next fuel w req s e s' Hmw.
    unfold apply_Middleware. cbn [mw_router mw_func].
    rewrite (ServeHTTP_useClosure _ r
               {| chi := chi R; errHandler := handler;
                  routerBuilder := routerBuilder R |}).
    + unfold link. now rewrite (bind_Some _ _ _ _ _ Hmw).
    + simpl. now apply list_lookup_insert_eq.
Qed.

(** X3. A middleware registered with [Use] does not see the error of
    what it wraps: the handler it is given returns nil.  Around a failing
    route, the route's own wrapper runs its error handler once, the
    post-logic of the middleware runs after it, and the middleware's link
    raises nothing more. *)
Theorem Use_hides_route_error (st : Store) (r r' : RouterRef) (R' : Router)
  (pre post : Act unit) (h : Handler)
  (w : ResponseWriter) (req : Request) (s s1 s2 : World) (e : error) (fuel : nat) :
  routers st !! r' = Some R' ->
  pre s = Some (tt, s1) ->
  h (Request_Context req) w req s1 = Some (Some e, s2) ->
  ServeHTTP (S (S fuel)) st (useClosure r (around pre post) (Router_adapt r' h)) w req s
    = (errHandler R' w req e ;; post) s2.
Proof.
  intros HR Hpre Hh.
  cbn [ServeHTTP Router_adapt]. rewrite (call_errHandler_Some _ _ _ HR).
  unfold around, bind, ret. rewrite Hpre, Hh.
  destruct (errHandler R' w req e s2) as [[[] s3]|]; [|reflexivity].
  destruct (post s3) as [[[] s4]|]; reflexivity.
Qed.

(** X4. A conventional middleware that answers by itself, adapted with
    [AdaptMiddleware] and registered with [Use], ends the request with its
    own response: nothing underneath runs and no error handler is called,
    whatever the wrapper. *)
Theorem adapted_short_circuit_is_silent (st : Store) (r : RouterRef)
  (stdMiddleware : HandlerFunc -> HandlerFunc) (next : http_Handler)
  (w : ResponseWriter) (req : Request) (s s1 : World) (fuel : nat) :
  (forall nx, stdMiddleware nx w req
                {| events := events s; cells := cells s ++ [None] |} = Some (tt, s1)) ->
  cells s1 = cells s ++ [None] ->
  ServeHTTP (S fuel) st (useClosure r (AdaptMiddleware stdMiddleware) next) w req s
    = Some (tt, s1).
Proof.
  intros Hsame Hc. cbn [ServeHTTP].
  unfold AdaptMiddleware, declare_err, load_err. unfold bind at 1 2 3.
  rewrite Hsame, Hc, list_lookup_middle by reflexivity. reflexivity.
Qed.

(** ** The adapters *)

(** X5. Round trip: a conventional handler turned into a [Handler] by
    [StandardHandler] and back by [AdaptHandler], or registered as a route,
    behaves as the conventional handler itself; the error handler is
    never called. *)
Theorem AdaptHandler_StandardHandler (h : HandlerFunc) (eh : ErrorHandler)
  (st : Store) (r : RouterRef) (w : ResponseWriter) (req : Request)
  (s : World) (fuel : nat) :
  AdaptHandler (StandardHandler h) eh w req s = h w req s
  /\ ServeHTTP (S fuel) st (Router_adapt r (StandardHandler h)) w req s = h w req s.
Proof.
  cbn [ServeHTTP Router_adapt]. unfold AdaptHandler, StandardHandler, bind, ret.
  destruct (h w req s) as [[[] s1]|]; split; reflexivity.
Qed.

(** X6. [AdaptMiddleware] drops the context it is called with: a
    conventional middleware that forwards the request [g r] makes [next]
    run with the context of [g r], and the adapted middleware returns what
    that call returned. *)
Theorem AdaptMiddleware_forwards_request_context (g : Request -> Request)
  (next : Handler) (c : Context) (w : ResponseWriter) (r : Request)
  (s s1 : World) (e : option error) :
  next (Request_Context (g r)) w (g r)
    {| events := events s; cells := cells s ++ [None] |} = Some (e, s1) ->
  List.length (cells s) < List.length (cells s1) ->
  AdaptMiddleware (fun nx w0 r0 => nx w0 (g r0)) next c w r s
    = Some (e, {| events := events s1;
                  cells := <[List.length (cells s) := e]> (cells s1) |}).
Proof.
  intros Hnext Hlive.
  unfold AdaptMiddleware, declare_err, capture, store_err, load_err, modify.
  unfold bind. rewrite Hnext. cbn [cells].
  now rewrite list_lookup_insert_eq by exact Hlive.
Qed.

(** ** A failing route on a wrapper with the default error handler *)

Lemma defaultErrorHandler_run w req err s :
  defaultErrorHandler w req err s =
    Some (tt, {| events := events s ++ default_writes w err; cells := cells s |}).
Proof.
  unfold defaultErrorHandler, http_Error, emit, modify, bind, default_writes.
  simpl. now rewrite <- !app_assoc.
Qed.

(** X7. A route whose handler fails, on a wrapper that holds the default
    error handler: the request returns, the body is what the handler had
    written followed by the message and a newline, and the status is 500
    unless the handler had started the response, in which case it stays
    what the handler sent. *)
Theorem failing_route_default_response (st : Store) (r : RouterRef) (R : Router)
  (h : Handler) (w : ResponseWriter) (req : Request) (s s' : World)
  (e : error) (fuel : nat) :
  routers st !! r = Some R ->
  errHandler R = defaultErrorHandler ->
  h (Request_Context req) w req s = Some (Some e, s') ->
  exists s'',
    ServeHTTP (S fuel) st (Router_adapt r h) w req s = Some (tt, s'')
    /\ body_of w (events s'')
         = (body_of w (events s') ++ (Error e ++ newline))%string
    /\ status_of w (events s'')
         = (if wrote w (events s') then status_of w (events s') else 500).
Proof.
  intros HR Heh Hh. eexists. split; [|split].
  - rewrite (adapt_fails_to st r (errHandler R) h w req s e s' fuel);
      [| now rewrite HR | exact Hh].
    rewrite Heh. apply defaultErrorHandler_run.
  - cbn [events]. rewrite body_of_app. f_equal.
    simpl. rewrite Nat.eqb_refl. apply append_empty.
  - cbn [events]. rewrite status_of_app. simpl. now rewrite Nat.eqb_refl.
Qed.

(** ** Construction: what options can and cannot do *)

Lemma New_run (os : list opt) (st : Store) :
  New (map option_of os) st =
    Some (List.length (routers st),
          {| routers := routers st ++
               [{| chi := fst (last_builder os defaultRouterBuilder (muxes st));
                   errHandler := last_errHandler os defaultErrorHandler;
                   routerBuilder := Some (last_builder os defaultRouterBuilder) |}];
             muxes := snd (last_builder os defaultRouterBuilder (muxes st)) |}).
Proof.
  unfold New. unfold bind at 1. unfold new_Router.
  rewrite (bind_Some _ _ _ _ _ (apply_options_last os _ _ _ _ _)).
  erewrite bind_Some by (apply deref_Some; simpl; now apply list_lookup_middle).
  cbn [routerBuilder].
  rewrite (bind_Some _ _ _ _ _ (call_Builder_Some _ _)). cbn [muxes routers].
  rewrite (bind_Some _ _ _ _ _ (assign_last _ _ _ _)).
  reflexivity.
Qed.

Lemma apply_options_app a b r st :
  apply_options (a ++ b) r st = (apply_options a r ;; apply_options b r) st.
Proof.
  revert st. induction a as [|o a IH]; intros st; [reflexivity|].
  cbn [app apply_options]. unfold bind.
  destruct (o r st) as [[[] s1]|]; [|reflexivity]. rewrite IH. reflexivity.
Qed.

(** While the options run, the wrapper has no chi router yet. *)
Lemma New_option_panics os (o : Option) rest st :
  (forall s R, routers s !! List.length (routers st) = Some R -> chi R = None ->
               o (List.length (routers st)) s = None) ->
  New (map option_of os ++ o :: rest) st = None.
Proof.
  intros Ho. unfold New. unfold bind at 1. unfold new_Router.
  apply bind_None. rewrite apply_options_app.
  rewrite (bind_Some _ _ _ _ _ (apply_options_last os _ _ _ _ _)).
  cbn [apply_options]. apply bind_None.
  eapply Ho; [simpl; now apply list_lookup_middle | reflexivity].
Qed.

Lemma nil_chi_panics (k : option MuxRef -> Cfg unit) r s R :
  k None s = None ->
  routers s !! r = Some R -> chi R = None ->
  (R0 <- deref r ;; k (chi R0)) s = None.
Proof.
  intros Hk HR Hc. rewrite (bind_Some _ _ _ _ _ (deref_Some _ _ _ HR)).
  now rewrite Hc.
Qed.

(** X8. The chi router of a wrapper is made after the options have run,
    so an option that registers anything on the wrapper (a route, a
    fallback, a mount, a middleware) makes [New] panic, whatever options
    come before and after it. *)
Theorem New_panics_on_registering_option (os : list opt) (rest : list Option)
  (st : Store) (method pattern : string) (h : Handler)
  (hh : option http_Handler) (mws : list (Handler -> Handler)) :
  New (map option_of os ++ (fun r => Router_Method r method pattern h) :: rest) st = None
  /\ New (map option_of os ++ (fun r => Router_Get r pattern h) :: rest) st = None
  /\ New (map option_of os ++ (fun r => Router_NotFound r h) :: rest) st = None
  /\ New (map option_of os ++ (fun r => Router_MethodNotAllowed r h) :: rest) st = None
  /\ New (map option_of os ++ (fun r => Router_Mount r pattern hh) :: rest) st = None
  /\ New (map option_of os ++ (fun r => Router_Use r mws) :: rest) st = None.
Proof.
  repeat split; apply New_option_panics; intros s R HR Hc.
  - now apply (nil_chi_panics
      (fun c => Mux_Method c method pattern (Router_adapt _ h)) _ s R).
  - now apply (nil_chi_panics
      (fun c => Mux_Method c "GET" pattern (Router_adapt _ h)) _ s R).
  - now apply (nil_chi_panics (fun c => Mux_NotFound c (Router_adapt _ h)) _ s R).
  - now apply (nil_chi_panics
      (fun c => Mux_MethodNotAllowed c (Router_adapt _ h)) _ s R).
  - now apply (nil_chi_panics (fun c => Mux_Mount c pattern hh) _ s R).
  - now apply (nil_chi_panics
      (fun c => Mux_Use c (map (mkMiddleware _) mws)) _ s R).
Qed.

Lemma apply_errHandlers ehs : forall l c eh ob ms,
  exists eh',
    apply_options (map WithErrorHandler ehs) (List.length l)
      {| routers := l ++ [{| chi := c; errHandler := eh; routerBuilder := ob |}];
         muxes := ms |} =
    Some (tt, {| routers := l ++ [{| chi := c; errHandler := eh';
                                      routerBuilder := ob |}];
                 muxes := ms |}).
Proof.
  induction ehs as [|h ehs IH]; intros l c eh ob ms.
  - now exists eh.
  - cbn [map apply_options]. unfold WithErrorHandler.
    rewrite (bind_Some _ _ _ _ _ (assign_last _ _ _ _)). cbn. apply IH.
Qed.

(** X9. [WithRouterBuilder(nil)], when no later [WithRouterBuilder]
    replaces it, makes [New] panic: the nil construction strategy is
    called once the options are done. *)
Theorem New_panics_on_nil_builder (os : list opt) (ehs : list ErrorHandler)
  (st : Store) :
  New (map option_of os ++ WithRouterBuilder None :: map WithErrorHandler ehs) st
    = None.
Proof.
  unfold New. unfold bind at 1. unfold new_Router.
  destruct (apply_errHandlers ehs (routers st) None
              (last_errHandler os defaultErrorHandler) None (muxes st))
    as (eh' & Hrun).
  erewrite bind_Some; cycle 1.
  { rewrite apply_options_app.
    rewrite (bind_Some _ _ _ _ _ (apply_options_last os _ _ _ _ _)).
    cbn [apply_options]. unfold WithRouterBuilder at 1.
    rewrite (bind_Some _ _ _ _ _ (assign_last _ _ _ _)). exact Hrun. }
  erewrite bind_Some by (apply deref_Some; simpl; now apply list_lookup_middle).
  reflexivity.
Qed.

Lemma last_builder_snoc os b d : last_builder (os ++ [optRouterBuilder b]) d = b.
Proof. unfold last_builder. now rewrite fold_left_app. Qed.

Lemma last_builder_snoc_errHandler os h d :
  last_builder (os ++ [optErrorHandler h]) d = last_builder os d.
Proof. unfold last_builder. now rewrite fold_left_app. Qed.

Lemma last_errHandler_snoc os h d : last_errHandler (os ++ [optErrorHandler h]) d = h.
Proof. unfold last_errHandler. now rewrite fold_left_app. Qed.

(** X10. A construction strategy that returns a nil router: [New]
    returns a wrapper all the same, and every registration on it, and
    serving a request with it, panics. *)
Theorem New_with_nil_router_is_unusable (os : list opt) (b : Builder) (st : Store) :
  fst (b (muxes st)) = None ->
  exists st',
    New (map option_of (os ++ [optRouterBuilder b])) st
      = Some (List.length (routers st), st')
    /\ (forall method pattern h,
          Router_Method (List.length (routers st)) method pattern h st' = None)
    /\ (forall h, Router_NotFound (List.length (routers st)) h st' = None)
    /\ (forall h, Router_MethodNotAllowed (List.length (routers st)) h st' = None)
    /\ (forall pattern hh, Router_Mount (List.length (routers st)) pattern hh st' = None)
    /\ (forall mws, Router_Use (List.length (routers st)) mws st' = None)
    /\ (forall fuel w req s,
          Router_ServeHTTP fuel st' (List.length (routers st)) w req s = None).
Proof.
  intros Hnil. eexists. split; [apply New_run|].
  rewrite last_builder_snoc.
  set (R := {| chi := fst (b (muxes st));
               errHandler := last_errHandler (os ++ [optRouterBuilder b]) defaultErrorHandler;
               routerBuilder := Some b |}).
  set (st' := {| routers := routers st ++ [R]; muxes := snd (b (muxes st)) |}).
  assert (routers st' !! List.length (routers st) = Some R) as HR
    by (simpl; now apply list_lookup_middle).
  assert (chi R = None) as Hc by exact Hnil.
  repeat split.
  - intros method pattern h.
    now apply (nil_chi_panics
      (fun c => Mux_Method c method pattern (Router_adapt _ h)) _ st' R).
  - intros h. now apply (nil_chi_panics (fun c => Mux_NotFound c (Router_adapt _ h)) _ st' R).
  - intros h.
    now apply (nil_chi_panics
      (fun c => Mux_MethodNotAllowed c (Router_adapt _ h)) _ st' R).
  - intros pattern hh. now apply (nil_chi_panics (fun c => Mux_Mount c pattern hh) _ st' R).
  - intros mws.
    now apply (nil_chi_panics (fun c => Mux_Use c (map (mkMiddleware _) mws)) _ st' R).
  - intros fuel w req s. unfold Router_ServeHTTP. now rewrite HR, Hc.
Qed.

(** X11. [WithErrorHandler(h)] as the last option gives the same wrapper
    as [SetErrorHandler(h)] called right after [New]. *)
Theorem WithErrorHandler_is_SetErrorHandler (os : list opt) (h : ErrorHandler)
  (st : Store) :
  (r <- New (map option_of os) ;; Router_SetErrorHandler r h ;; ret r) st
    = New (map option_of (os ++ [optErrorHandler h])) st.
Proof.
  rewrite (bind_Some _ _ _ _ _ (New_run os st)), (New_run (os ++ [optErrorHandler h])).
  unfold Router_SetErrorHandler.
  rewrite (bind_Some _ _ _ _ _ (assign_last _ _ _ _)).
  now rewrite last_builder_snoc_errHandler, last_errHandler_snoc.
Qed.

(** ** Sub-scopes made after an override *)

(** X12. A sub-scope made by [Group] or [Route] after [SetErrorHandler]
    on the parent starts with the new handler: a handler registered on it,
    by a callback that does not replace the sub-scope's error handler,
    reaches the new handler when it fails. *)
Theorem subscope_after_override (st : Store) (p : RouterRef) (P : Router)
  (b : Builder) (fn : RouterRef -> Cfg unit) (pattern : string)
  (handler : ErrorHandler) (h : Handler)
  (w : ResponseWriter) (req : Request) (s s' : World) (e : error) (fuel : nat) :
  routers st !! p = Some P ->
  routerBuilder P = Some b ->
  keeps_errHandler (List.length (routers st)) (fn (List.length (routers st))) ->
  h (Request_Context req) w req s = Some (Some e, s') ->
  (forall sub st1,
     (Router_SetErrorHandler p handler ;; Router_Group p fn) st = Some (sub, st1) ->
     sub = List.length (routers st)
     /\ ServeHTTP (S fuel) st1 (Router_adapt sub h) w req s = handler w req e s')
  /\ (forall st1,
     (Router_SetErrorHandler p handler ;; Router_Route p pattern fn) st
       = Some (tt, st1) ->
     ServeHTTP (S fuel) st1 (Router_adapt (List.length (routers st)) h) w req s
       = handler w req e s').
Proof.
  intros HP Hb Hk Hh.
  pose proof (lookup_lt_Some _ _ _ HP) as Hlt.
  set (P' := {| chi := chi P; errHandler := handler;
                routerBuilder := routerBuilder P |}).
  set (st0 := {| routers := <[p := P']> (routers st); muxes := muxes st |}).
  assert (Router_SetErrorHandler p handler st = Some (tt, st0)) as HS
    by (exact (assign_Some st p P _ HP)).
  assert (routers st0 !! p = Some P') as HP'
    by (simpl; now apply list_lookup_insert_eq).
  assert (List.length (routers st0) = List.length (routers st)) as Hlen
    by (simpl; apply length_insert).
  split.
  - intros sub st1 HG. rewrite (bind_Some _ _ _ _ _ HS) in HG.
    rewrite (Router_Group_unfold _ _ _ _ _ HP' Hb) in HG. rewrite Hlen in HG.
    assert (sub = List.length (routers st)) as ->.
    { apply bind_inv in HG as (u & s1 & _ & HG).
      apply bind_inv in HG as (Q & s2 & _ & HG).
      apply bind_inv in HG as (Sub & s3 & _ & HG).
      apply bind_inv in HG as (u' & s4 & _ & HG).
      now injection HG as <- _. }
    split; [reflexivity|]. apply adapt_fails_to; [|exact Hh].
    change handler with (errHandler P'). rewrite <- Hlen.
    eapply scope_exit; [reflexivity | rewrite Hlen; exact Hk | | rewrite Hlen; exact HG].
    intros s0 x s1 Hrest. eapply mount_tail_routers; [|exact Hrest].
    intros s5 x0 s6 Hret. now injection Hret as _ <-.
  - intros st1 HR. rewrite (bind_Some _ _ _ _ _ HS) in HR.
    rewrite (Router_Route_unfold _ _ _ _ _ _ HP' Hb) in HR. rewrite Hlen in HR.
    apply adapt_fails_to; [|exact Hh].
    change handler with (errHandler P'). rewrite <- Hlen.
    eapply scope_exit; [reflexivity | rewrite Hlen; exact Hk | | rewrite Hlen; exact HR].
    intros s0 x s1 Hrest.
    apply bind_inv in Hrest as (Q & s2 & H2 & Hrest). apply deref_inv in H2 as ->.
    apply bind_inv in Hrest as (Sub & s3 & H3 & Hrest). apply deref_inv in H3 as ->.
    now apply Mux_Mount_routers in Hrest.
Qed.

(** ** Use, call by call *)



(** ** The fallbacks *)

Lemma Router_NotFound_Some st r R m M h :
  routers st !! r = Some R -> chi R = Some m -> muxes st !! m = Some M ->
  Router_NotFound r h st =
    Some (tt, {| routers := routers st;
                 muxes := <[m := {| middlewares := middlewares M;
                                    routes := routes M;
                                    mounts := mounts M;
                                    notFoundHandler := Some (Router_adapt r h);
                                    methodNotAllowedHandler := methodNotAllowedHandler M |}]>
                            (muxes st) |}).
Proof.
  intros HR Hc HM. unfold Router_NotFound.
  rewrite (bind_Some _ _ _ _ _ (deref_Some _ _ _ HR)).
  rewrite Hc. unfold Mux_NotFound. simpl must.
  unfold bind at 1. unfold ret at 1.
  now rewrite (update_Mux_Some _ _ _ _ HM).
Qed.

Lemma Router_MethodNotAllowed_Some st r R m M h :
  routers st !! r = Some R -> chi R = Some m -> muxes st !! m = Some M ->
  Router_MethodNotAllowed r h st =
    Some (tt, {| routers := routers st;
                 muxes := <[m := {| middlewares := middlewares M;
                                    routes := routes M;
                                    mounts := mounts M;
                                    notFoundHandler := notFoundHandler M;
                                    methodNotAllowedHandler := Some (Router_adapt r h) |}]>
                            (muxes st) |}).
Proof.
  intros HR Hc HM. unfold Router_MethodNotAllowed.
  rewrite (bind_Some _ _ _ _ _ (deref_Some _ _ _ HR)).
  rewrite Hc. unfold Mux_MethodNotAllowed. simpl must.
  unfold bind at 1. unfold ret at 1.
  now rewrite (update_Mux_Some _ _ _ _ HM).
Qed.

(** X14. [NotFound] and [MethodNotAllowed] hand the underlying router the
    adapted handler, each in its own slot and leaving the other slot and
    the routes alone; a fallback handler that fails reaches the error
    handler the wrapper holds when the request is served. *)
Theorem fallback_handlers_are_adapted (st : Store) (r : RouterRef) (R : Router)
  (m : MuxRef) (M : Mux) (h : Handler) (handler : ErrorHandler) :
  routers st !! r = Some R -> chi R = Some m -> muxes st !! m = Some M ->
  (exists st',
     (Router_NotFound r h ;; Router_SetErrorHandler r handler) st = Some (tt, st')
     /\ (exists M', muxes st' !! m = Some M'
           /\ notFoundHandler M' = Some (Router_adapt r h)
           /\ methodNotAllowedHandler M' = methodNotAllowedHandler M
           /\ routes M' = routes M)
     /\ forall fuel w req s e s',
          h (Request_Context req) w req s = Some (Some e, s') ->
          ServeHTTP (S fuel) st' (Router_adapt r h) w req s = handler w req e s')
  /\ (exists st',
     (Router_MethodNotAllowed r h ;; Router_SetErrorHandler r handler) st = Some (tt, st')
     /\ (exists M', muxes st' !! m = Some M'
           /\ methodNotAllowedHandler M' = Some (Router_adapt r h)
           /\ notFoundHandler M' = notFoundHandler M
           /\ routes M' = routes M)
     /\ forall fuel w req s e s',
          h (Request_Context req) w req s = Some (Some e, s') ->
          ServeHTTP (S fuel) st' (Router_adapt r h) w req s = handler w req e s').
Proof.
  intros HR Hc HM.
  pose proof (lookup_lt_Some _ _ _ HR) as Hr.
  pose proof (lookup_lt_Some _ _ _ HM) as Hm.
  assert (forall st0, routers st0 = routers st ->
            exists st', Router_SetErrorHandler r handler st0 = Some (tt, st')
              /\ muxes st' = muxes st0
              /\ forall fuel w req s e s',
                   h (Request_Context req) w req s = Some (Some e, s') ->
                   ServeHTTP (S fuel) st' (Router_adapt r h) w req s
                     = handler w req e s') as Hset.
  { intros st0 H0. eexists. split; [|split].
    - apply assign_Some. rewrite H0. exact HR.
    - reflexivity.
    - intros fuel w req s e s' Hh. apply adapt_fails_to; [|exact Hh].
      cbn [routers]. rewrite H0, list_lookup_insert_eq by exact Hr. reflexivity. }
  split.
  - rewrite (bind_Some _ _ _ _ _ (Router_NotFound_Some _ _ _ _ _ h HR Hc HM)).
    match goal with |- context [Router_SetErrorHandler r handler ?s0] =>
      destruct (Hset s0 eq_refl) as (st' & HS & Hmux & Hserve) end.
    exists st'. split; [exact HS|]. split; [|exact Hserve].
    eexists. split.
    + rewrite Hmux. simpl. now apply list_lookup_insert_eq.
    + repeat split.
  - rewrite (bind_Some _ _ _ _ _ (Router_MethodNotAllowed_Some _ _ _ _ _ h HR Hc HM)).
    match goal with |- context [Router_SetErrorHandler r handler ?s0] =>
      destruct (Hset s0 eq_refl) as (st' & HS & Hmux & Hserve) end.
    exists st'. split; [exact HS|]. split; [|exact Hserve].
    eexists. split.
    + rewrite Hmux. simpl. now apply list_lookup_insert_eq.
    + repeat split.
Qed.

(** ** Middlewares of a sub-scope *)





(** * The further properties on the scenarios of the test suite *)


Lemma Use_errHandler_read_at_request_time_witness :
  routers new_store !! 0 = Some default_Router
  /\ chi default_Router = Some 0
  /\ muxes new_store !! 0 = Some NewMux
  /\ exists st',
       (Router_Use 0 [errorMiddleware] ;; Router_SetErrorHandler 0 customHandler)
         new_store = Some (tt, st')
       /\ ServeHTTP 1 st' (apply_Middleware (mkMiddleware 0 errorMiddleware) (routeHTTP 0))
            7 (GET "/test") fresh_world
          = customHandler 7 (GET "/test") (errors_New "middleware error") fresh_world.
Proof.
  do 3 (split; [reflexivity|]).
  destruct (Use_errHandler_read_at_request_time new_store 0 default_Router 0 NewMux
              errorMiddleware customHandler eq_refl eq_refl eq_refl)
    as (st' & HU & _ & Hserve).
  exists st'. split; [exact HU|]. apply Hserve. reflexivity.
Defined.

Lemma Use_hides_route_error_witness :
  routers new_store !! 0 = Some default_Router
  /\ emit (Mark "in") fresh_world = Some (tt, {| events := [Mark "in"]; cells := [] |})
  /\ failing (Request_Context (GET "/test")) 7 (GET "/test")
       {| events := [Mark "in"]; cells := [] |}
     = Some (Some test_error, {| events := [Mark "in"]; cells := [] |})
  /\ ServeHTTP 2 new_store
       (useClosure 0 (around (emit (Mark "in")) (emit (Mark "out")))
          (Router_adapt 0 failing)) 7 (GET "/test") fresh_world
     = Some (tt, {| events := Mark "in" :: default_writes 7 test_error ++ [Mark "out"];
                    cells := [] |}).
Proof.
  do 3 (split; [reflexivity|]).
  rewrite (Use_hides_route_error new_store 0 0 default_Router
             (emit (Mark "in")) (emit (Mark "out")) failing 7 (GET "/test")
             fresh_world _ _ test_error 0 eq_refl eq_refl eq_refl).
  reflexivity.
Defined.

Lemma adapted_short_circuit_is_silent_witness :
  (forall nx, answers_itself nx 7 (GET "/test")
                {| events := []; cells := [None] |}
              = Some (tt, {| events := [WriteHeader 7 404]; cells := [None] |}))
  /\ ServeHTTP 1 new_store
       (useClosure 0 (AdaptMiddleware answers_itself) (Router_adapt 0 failing))
       7 (GET "/test") fresh_world
     = Some (tt, {| events := [WriteHeader 7 404]; cells := [None] |}).
Proof.
  split; [reflexivity|].
  apply (adapted_short_circuit_is_silent new_store 0 answers_itself
           (Router_adapt 0 failing) 7 (GET "/test") fresh_world _ 0);
    reflexivity.
Defined.

Lemma AdaptMiddleware_forwards_request_context_witness :
  (fun (c : Context) (_ : ResponseWriter) (_ : Request) =>
     emit (Mark (default "" (snd <$> head c))) ;; ret (@None error))
    (Request_Context (with_testKey (GET "/test"))) 7 (with_testKey (GET "/test"))
    {| events := []; cells := [None] |}
  = Some (None, {| events := [Mark "testValue"]; cells := [None] |})
  /\ AdaptMiddleware (fun nx w0 r0 => nx w0 (with_testKey r0))
       (fun c _ _ => emit (Mark (default "" (snd <$> head c))) ;; ret None)
       [] 7 (GET "/test") fresh_world
     = Some (None, {| events := [Mark "testValue"]; cells := [None] |}).
Proof.
  split; [reflexivity|].
  apply (AdaptMiddleware_forwards_request_context with_testKey
           (fun c _ _ => emit (Mark (default "" (snd <$> head c))) ;; ret None)
           [] 7 (GET "/test") fresh_world
           {| events := [Mark "testValue"]; cells := [None] |} None).
  - reflexivity.
  - simpl. lia.
Defined.

Lemma failing_route_default_response_witness :
  routers new_store !! 0 = Some default_Router
  /\ errHandler default_Router = defaultErrorHandler
  /\ fails_late (Request_Context (GET "/test")) 7 (GET "/test") fresh_world
     = Some (Some test_error,
             {| events := [WriteHeader 7 200; Write 7 "partial"]; cells := [] |})
  /\ exists s'',
       ServeHTTP 1 new_store (Router_adapt 0 fails_late) 7 (GET "/test") fresh_world
         = Some (tt, s'')
       /\ body_of 7 (events s'') = ("partial" ++ ("test error" ++ newline))%string
       /\ status_of 7 (events s'') = 200.
Proof.
  do 3 (split; [reflexivity|]).
  exact (failing_route_default_response new_store 0 default_Router fails_late
           7 (GET "/test") fresh_world _ test_error 0 eq_refl eq_refl eq_refl).
Defined.

Lemma New_with_nil_router_is_unusable_witness :
  fst (nil_builder (muxes no_store)) = None
  /\ exists st',
       New [WithRouterBuilder (Some nil_builder)] no_store = Some (0, st')
       /\ Router_Method 0 "GET" "/test" writes_ok st' = None
       /\ Router_ServeHTTP 5 st' 0 7 (GET "/test") fresh_world = None.
Proof.
  split; [reflexivity|].
  destruct (New_with_nil_router_is_unusable [] nil_builder no_store eq_refl)
    as (st' & HN & HM & _ & _ & _ & _ & HS).
  exists st'. split; [exact HN|]. split; [apply HM | apply HS].
Defined.

Lemma subscope_after_override_witness :
  routers new_store !! 0 = Some default_Router
  /\ routerBuilder default_Router = Some defaultRouterBuilder
  /\ failing [] 7 (GET "/g") fresh_world = Some (Some test_error, fresh_world)
  /\ exists sub st1,
       (Router_SetErrorHandler 0 customHandler ;;
        Router_Group 0 (fun g => Router_Get g "/g" failing)) new_store = Some (sub, st1)
       /\ ServeHTTP 1 st1 (Router_adapt sub failing) 7 (GET "/g") fresh_world
            = customHandler 7 (GET "/g") test_error fresh_world.
Proof.
  do 3 (split; [reflexivity|]).
  do 2 eexists. split; [reflexivity|].
  exact (proj2 (proj1 (subscope_after_override new_store 0 default_Router
                         defaultRouterBuilder (fun g => Router_Get g "/g" failing)
                         "/api" customHandler failing 7 (GET "/g") fresh_world
                         fresh_world test_error 0 eq_refl eq_refl
                         (Router_Method_keeps 1 1 "GET" "/g" failing) eq_refl)
                  _ _ eq_refl)).
Defined.


Lemma fallback_handlers_are_adapted_witness :
  routers new_store !! 0 = Some default_Router
  /\ chi default_Router = Some 0
  /\ muxes new_store !! 0 = Some NewMux
  /\ failing [] 7 (GET "/nonexistent") fresh_world
     = Some (Some test_error, fresh_world)
  /\ exists st',
       (Router_NotFound 0 failing ;; Router_SetErrorHandler 0 customHandler) new_store
         = Some (tt, st')
       /\ ServeHTTP 1 st' (Router_adapt 0 failing) 7 (GET "/nonexistent") fresh_world
            = customHandler 7 (GET "/nonexistent") test_error fresh_world.
Proof.
  do 4 (split; [reflexivity|]).
  destruct (proj1 (fallback_handlers_are_adapted new_store 0 default_Router 0 NewMux
                     failing customHandler eq_refl eq_refl eq_refl))
    as (st' & HS & _ & Hserve).
  exists st'. split; [exact HS|]. apply Hserve. reflexivity.
Defined.

(** A request for an unknown path, served by the router. *)
Example NotFound_failing_served :
  exists st,
    (Router_NotFound 0 failing ;; Router_SetErrorHandler 0 customHandler) new_store
      = Some (tt, st)
    /\ Router_ServeHTTP 4 st 0 7 (GET "/nonexistent") fresh_world
       = customHandler 7 (GET "/nonexistent") test_error fresh_world.
Proof. eexists. split; reflexivity. Qed.


